(** * zap-engine offline image tools: value-noise texture and Sobel normal map

    Shallow embedding of [tools/generate_bg_texture.py] and
    [tools/generate_normals.py].

    Number model.  Python [int] is [Z].  Python [float] is modelled by the
    real numbers [R]: every arithmetic operation is taken to be exact, so the
    rounding of binary64 arithmetic, infinities and NaN are outside the model.
    [math.floor] and [int(...)] on a float are the mathematical floor and the
    truncation toward zero.  Operations that raise in Python ([IndexError] of
    a list subscript, [ZeroDivisionError] of [/], [ValueError] of
    [math.sqrt]) return [None].  The module [Binary64] runs the arithmetic of
    one normal-map pixel on IEEE doubles, for concrete inputs only.

    What the statements rest on.  Sums and products of reals cancel
    exactly; those of doubles cancel only where each partial sum is exact.
    The theorems state an exact value only where the code's own order of
    operations gives it on doubles too (a product with 0, the pairwise
    cancelling horizontal Sobel sum), and otherwise ranges, inequalities and
    the identity of the expression computed.

    Libraries.  [random.Random] and Pillow's [Image.new] are not part of the
    tools: they enter as records ([PyRandom], [Pillow]) that state what the
    tools rely on, and every theorem holds for each implementation of them. *)

From Stdlib Require Import String.
From Stdlib Require Import Reals ZArith List Lia Lra Bool.
From Stdlib Require Import Permutation.
From Stdlib Require Floats Uint63.
Import ListNotations.

Open Scope Z_scope.
Open Scope R_scope.

(** ** Python primitives used by both tools *)

Module Py.

Definition bind {A B : Type} (m : option A) (k : A -> option B) : option B :=
  match m with
  | Some a => k a
  | None => None
  end.

(** [range(n)]: the integers [0, 1, ..., n-1]; empty when [n <= 0]. *)
Definition range (n : Z) : list Z := map Z.of_nat (seq 0 (Z.to_nat n)).

(** [l[i]]: a negative index counts from the end, an index outside the list
    raises [IndexError]. *)
Definition get {A : Type} (l : list A) (i : Z) : option A :=
  let len := Z.of_nat (length l) in
  if (i <? 0)%Z
  then (if (len + i <? 0)%Z then None else nth_error l (Z.to_nat (len + i)))
  else nth_error l (Z.to_nat i).

(** Sequencing of a list of computations, left to right, stopping at the
    first exception. *)
Fixpoint sequence {A : Type} (l : list (option A)) : option (list A) :=
  match l with
  | [] => Some []
  | m :: ms =>
      match m with
      | None => None
      | Some a =>
          match sequence ms with
          | None => None
          | Some r => Some (a :: r)
          end
      end
  end.

(** [math.floor(x)] converted by [int]. *)
Definition floor (x : R) : Z := Int_part x.

(** [int(v)] of a float: truncation toward zero. *)
Definition int (v : R) : Z :=
  if Rle_dec 0 v then Int_part v else (- Int_part (- v))%Z.

(** Two-argument [min(a, b)] and [max(a, b)]: the first argument is kept
    unless the second is strictly smaller (resp. strictly greater). *)
Definition min (a b : R) : R := if Rlt_dec b a then b else a.
Definition max (a b : R) : R := if Rlt_dec a b then b else a.

(** [a / b] on floats (and the true division of two ints): a zero divisor
    raises [ZeroDivisionError]. *)
Definition div (a b : R) : option R :=
  if Req_dec_T b 0 then None else Some (a / b).

(** [math.sqrt(v)]: a negative argument raises [ValueError]. *)
Definition sqrt (v : R) : option R :=
  if Rlt_dec v 0 then None else Some (R_sqrt.sqrt v).

End Py.

Notation "x <- m ;; k" := (Py.bind m (fun x => k))
(at level 61, m at next level, right associativity).

(** An RGBA pixel as Pillow hands it out: a 4-tuple of integers. *)
Definition RGBA : Type := (Z * Z * Z * Z)%type.

Definition red (p : RGBA) : Z := let '(r, _, _, _) := p in r.
Definition green (p : RGBA) : Z := let '(_, g, _, _) := p in g.
Definition blue (p : RGBA) : Z := let '(_, _, b, _) := p in b.
Definition alpha (p : RGBA) : Z := let '(_, _, _, a) := p in a.

(** A pixel grid as a list of rows; entry [x] of row [y] is pixel [(x, y)]. *)
Definition Grid : Type := list (list RGBA).

(** A [height] by [width] list of rows holding [f x y] at [[y][x]]: what a
    pair of loops [for y in range(height): for x in range(width)] fills. *)
Definition rows {A : Type} (width height : Z) (f : Z -> Z -> A) : list (list A) :=
  map (fun y => map (fun x => f x y) (Py.range width)) (Py.range height).


(** ** tools/generate_bg_texture.py *)

Module GenerateBgTexture.

Definition lerp (a b t : R) : R := a + (b - a) * t.

Definition smoothstep (t : R) : R := t * t * (3 - 2 * t).

(** The part of Python's [random.Random] the tool uses.  A generator is an
    explicit state; [Random seed] is the state of a freshly seeded instance,
    [shuffle] and [random] return their result with the next state.  The
    library's contract is all that is assumed of it: [shuffle] permutes its
    argument and [random] draws from [0, 1). *)
Record PyRandom : Type := {
  rng_state : Type;
  Random : Z -> rng_state;
  shuffle : rng_state -> list Z -> list Z * rng_state;
  random : rng_state -> R * rng_state;
  shuffle_permutes : forall s l, Permutation l (fst (shuffle s l));
  random_unit : forall s, 0 <= fst (random s) < 1
}.

Module ValueNoise2D.

(** The instance attributes [self.perm] and [self.values]. *)
Record t : Type := { perm : list Z; values : list R }.

Section WithRandom.

Variable rng : PyRandom.

(** [[rng.random() for _ in range(n)]]: [n] successive draws. *)
Fixpoint draw (n : nat) (s : rng_state rng) : list R * rng_state rng :=
  match n with
  | O => ([], s)
  | S n' =>
      let (v, s1) := random rng s in
      let (vs, s2) := draw n' s1 in
      (v :: vs, s2)
  end.

(** [ValueNoise2D(seed)].  The argument [w] is the state of the interpreter's
    module-level generator (the one behind [random.random()], seeded from the
    operating system when [random] is imported): the constructor works on a
    generator of its own, so [w] is handed back as it came. *)
Definition __init__ (seed : Z) (w : rng_state rng) : t * rng_state rng :=
  let r0 := Random rng seed in
  let (p, r1) := shuffle rng r0 (Py.range 256) in
  let p := p ++ p in
  let (vs, _) := draw 256 r1 in
  ({| perm := p; values := vs |}, w).

End WithRandom.

Definition _hash (self : t) (ix iy : Z) : option R :=
  a <- Py.get (perm self) (Z.land ix 255) ;;
  b <- Py.get (perm self) (a + Z.land iy 255)%Z ;;
  Py.get (values self) (Z.land b 255).

Definition sample (self : t) (x y : R) : option R :=
  let ix := Py.floor x in
  let iy := Py.floor y in
  let fx := x - IZR ix in
  let fy := y - IZR iy in
  let fx := smoothstep fx in
  let fy := smoothstep fy in
  v00 <- _hash self ix iy ;;
  v10 <- _hash self (ix + 1) iy ;;
  v01 <- _hash self ix (iy + 1) ;;
  v11 <- _hash self (ix + 1) (iy + 1) ;;
  Some (lerp (lerp v00 v10 fx) (lerp v01 v11 fx) fy).

End ValueNoise2D.

(** The body of [fbm]'s loop, run [n] more times from the current [value],
    [amplitude] and [frequency]. *)
Fixpoint fbm_loop (noise : ValueNoise2D.t) (x y : R) (n : nat)
    (value amplitude frequency : R) : option R :=
  match n with
  | O => Some value
  | S n' =>
      s <- ValueNoise2D.sample noise (x * frequency) (y * frequency) ;;
      fbm_loop noise x y n' (value + amplitude * s) (amplitude * 0.5) (frequency * 2)
  end.

Definition fbm (noise : ValueNoise2D.t) (x y : R) (octaves : Z) : option R :=
  fbm_loop noise x y (Z.to_nat octaves) 0 0.5 1.

Definition base_r : R := 35.
Definition base_g : R := 30.
Definition base_b : R := 28.
Definition var_r : R := 20.
Definition var_g : R := 15.
Definition var_b : R := 12.

(** The combined noise value [v] of pixel [(x, y)] before it is clamped. *)
Definition combined (noise1 noise2 noise3 : ValueNoise2D.t) (size x y : Z) : option R :=
  qx <- Py.div (IZR x) (IZR size) ;;
  let nx := qx * 8 in
  qy <- Py.div (IZR y) (IZR size) ;;
  let ny := qy * 8 in
  f1 <- fbm noise1 nx ny 5 ;;
  f2 <- fbm noise2 (nx * 2) (ny * 2) 4 ;;
  f3 <- fbm noise3 (nx * 6) (ny * 6) 3 ;;
  Some (f1 * 0.5 + f2 * 0.3 + f3 * 0.2).

(** The colour written for a combined noise value. *)
Definition shade (v : R) : RGBA :=
  let v := Py.max 0 (Py.min 1 v) in
  let r := Py.int (Py.max 0 (Py.min 255 (base_r + var_r * v))) in
  let g := Py.int (Py.max 0 (Py.min 255 (base_g + var_g * v))) in
  let b := Py.int (Py.max 0 (Py.min 255 (base_b + var_b * v))) in
  (r, g, b, 255%Z).

(** The body of the two pixel loops: the value stored in [pixels[x, y]]. *)
Definition texel (noise1 noise2 noise3 : ValueNoise2D.t) (size x y : Z) : option RGBA :=
  v <- combined noise1 noise2 noise3 size x y ;;
  Some (shade v).

(** The part of Pillow's [Image.new] the tool depends on: whether
    [Image.new('RGBA', (size, size))] returns an image or raises.  All that
    is assumed of the library is that a positive size is accepted. *)
Record Pillow : Type := {
  Image_new : Z -> bool;
  Image_new_positive : forall size, (0 < size)%Z -> Image_new size = true
}.

(** The messages [main] prints: the banner with the size and the seed, and
    the closing line with the output path. *)
Inductive message (path : Type) : Type :=
| Generating (size seed : Z)
| Done (output : path).

Arguments Generating {path} size seed.
Arguments Done {path} output.

(** The calls by which [main] leaves the tool: [print],
    [args.output.parent.mkdir(parents=True, exist_ok=True)] and
    [img.save(args.output)].  Each returns ([true]) or raises ([false]);
    nothing is assumed of them. *)
Record System : Type := {
  path : Type;
  print : message path -> bool;
  mkdir : path -> bool;
  save : Grid -> path -> bool
}.

(** Where a run of [main] raises. *)
Inductive stage : Type :=
| AtBanner
| AtGenerateTexture
| AtMkdir
| AtSave
| AtDonePrint.

(** How a run of [main] ends: it returns, or an exception ends it. *)
Inductive outcome : Type :=
| Returned
| Raised (at_ : stage).

Section WithLibraries.

Variable rng : PyRandom.
Variable pil : Pillow.

(** [generate_texture(size, seed)]: the three noise fields are built, the
    image is created, and the loops store a pixel at every position; the
    result is the grid of the stored pixels, row [y] holding the pixels
    [(0, y) ... (size-1, y)].  For [size <= 0] both ranges are empty and
    nothing is stored. *)
Definition generate_texture (size seed : Z) (w : rng_state rng)
    : option Grid * rng_state rng :=
  let (noise1, w) := ValueNoise2D.__init__ rng seed w in
  let (noise2, w) := ValueNoise2D.__init__ rng (seed + 137) w in
  let (noise3, w) := ValueNoise2D.__init__ rng (seed + 271) w in
  if Image_new pil size
  then
    (Py.sequence
       (map (fun y =>
               Py.sequence
                 (map (fun x => texel noise1 noise2 noise3 size x y) (Py.range size)))
            (Py.range size)),
     w)
  else (None, w).

Variable sys : System.

(** [main], after [argparse] has produced [args.size], [args.seed] and
    [args.output].  There is no test of [args.size] between parsing and
    [generate_texture]. *)
Definition main (size seed : Z) (output : path sys) (w : rng_state rng) : outcome :=
  if print sys (Generating size seed)
  then
    let (img, _) := generate_texture size seed w in
    match img with
    | None => Raised AtGenerateTexture
    | Some img =>
        if mkdir sys output
        then
          if save sys img output
          then
            if print sys (Done output) then Returned else Raised AtDonePrint
          else Raised AtSave
        else Raised AtMkdir
    end
  else Raised AtBanner.

End WithLibraries.

End GenerateBgTexture.

(** ** tools/generate_normals.py *)

Module GenerateNormals.

(** A Pillow image as the tool reads it: [img.size] and the pixel access
    object of [img.load()], which the loops only subscript inside the image. *)
Record Image : Type := {
  width : Z;
  height : Z;
  pixels : Z -> Z -> RGBA
}.

(** The height stored for one pixel. *)
Definition height_of (source : string) (p : RGBA) : R :=
  let '(r, g, b, a) := p in
  if String.eqb source "alpha"
  then IZR a / 255
  else (0.299 * IZR r + 0.587 * IZR g + 0.114 * IZR b) / 255.

(** [height_map] once the first pair of loops has filled it. *)
Definition height_map (img : Image) (source : string) : list (list R) :=
  rows (width img) (height img) (fun x y => height_of source (pixels img x y)).

(** The closure [h] of pixel [(x, y)]. *)
Definition h (height_map : list (list R)) (width height x y : Z) (dx dy : Z) : option R :=
  let sx := Z.max 0 (Z.min (width - 1) (x + dx)) in
  let sy := Z.max 0 (Z.min (height - 1) (y + dy)) in
  row <- Py.get height_map sy ;;
  Py.get row sx.

Section Pixel.

Variable height_map : list (list R).
Variables width height x y : Z.

Let h := h height_map width height x y.

(** Sobel horizontal (dh/dx), before the scaling by [strength]. *)
Definition gx : option R :=
  a <- h (-1) (-1) ;;
  b <- h 1 (-1) ;;
  c <- h (-1) 0 ;;
  d <- h 1 0 ;;
  e <- h (-1) 1 ;;
  f <- h 1 1 ;;
  Some (-1 * a + 1 * b + -2 * c + 2 * d + -1 * e + 1 * f).

(** Sobel vertical (dh/dy), before the scaling by [strength]. *)
Definition gy : option R :=
  a <- h (-1) (-1) ;;
  b <- h 0 (-1) ;;
  c <- h 1 (-1) ;;
  d <- h (-1) 1 ;;
  e <- h 0 1 ;;
  f <- h 1 1 ;;
  Some (-1 * a + -2 * b + -1 * c + 1 * d + 2 * e + 1 * f).

(** The gradient after [gx *= strength] and [gy *= strength]. *)
Definition gradient (strength : R) : option (R * R) :=
  gx <- gx ;;
  gy <- gy ;;
  Some (gx * strength, gy * strength).

End Pixel.

(** [length] of the raw normal [(-gx, -gy, 1.0)]. *)
Definition normal_length (gx gy : R) : option R :=
  let nx := - gx in
  let ny := - gy in
  let nz := 1 in
  Py.sqrt (nx * nx + ny * ny + nz * nz).

(** The normal vector [(-gx, -gy, 1.0)], normalized. *)
Definition normal (gx gy : R) : option (R * R * R) :=
  let nx := - gx in
  let ny := - gy in
  let nz := 1 in
  length <- normal_length gx gy ;;
  nx <- Py.div nx length ;;
  ny <- Py.div ny length ;;
  nz <- Py.div nz length ;;
  Some (nx, ny, nz).

(** One output channel: [int(max(0, min(255, (n * 0.5 + 0.5) * 255)))]. *)
Definition channel (n : R) : Z :=
  Py.int (Py.max 0 (Py.min 255 ((n * 0.5 + 0.5) * 255))).

(** The encoding of a normal, with the alpha of the source pixel. *)
Definition encode (nx ny nz : R) (a : Z) : RGBA :=
  let r_out := channel nx in
  let g_out := channel ny in
  let b_out := channel nz in
  (r_out, g_out, b_out, a).

(** The body of the second pair of loops: the value stored in
    [out_pixels[x, y]]. *)
Definition normal_pixel (img : Image) (height_map : list (list R))
    (strength : R) (x y : Z) : option RGBA :=
  g <- gradient height_map (width img) (height img) x y strength ;;
  n <- normal (fst g) (snd g) ;;
  let '(nx, ny, nz) := n in
  Some (encode nx ny nz (alpha (pixels img x y))).

Definition sobel_normal_map (img : Image) (strength : R) (source : string)
    : option Grid :=
  let height_map := height_map img source in
  Py.sequence
    (map (fun y =>
            Py.sequence
              (map (fun x => normal_pixel img height_map strength x y)
                   (Py.range (width img))))
         (Py.range (height img))).

(** *** The command line entry point *)

Module Main.

(** A path as [pathlib] takes it apart: the parent directory and the final
    component. *)
Record Path : Type := { parent : list string; name : string }.

(** The part of [pathlib] the tool uses on a final component: [stem] and
    [suffix] cut it in two. *)
Record Pathlib : Type := {
  stem : string -> string;
  suffix : string -> string;
  stem_suffix : forall n, (stem n ++ suffix n)%string = n
}.

Section WithLibraries.

Variable pl : Pathlib.

(** [args.input.parent / f"{args.input.stem}_normals{args.input.suffix}"]. *)
Definition default_output (p : Path) : Path :=
  {| parent := parent p;
     name := (stem pl (name p) ++ "_normals" ++ suffix pl (name p))%string |}.

End WithLibraries.

End Main.

End GenerateNormals.

(** ** The wording of the specification

    Definitions that follow the specification's text rather than the code;
    the theorems below compare the code with them. *)

Module Spec.

(** [z] is an integer nearest to [r]: what [round] may return. *)
Definition nearest_integer (r : R) (z : Z) : Prop :=
  forall z' : Z, Rabs (r - IZR z) <= Rabs (r - IZR z').

(** FractalSum: [amplitude_0 = 0.5], [amplitude_{i+1} = amplitude_i / 2]. *)
Fixpoint amplitude (i : nat) : R :=
  match i with
  | O => 0.5
  | S j => amplitude j / 2
  end.

(** FractalSum: [frequency_0 = 1], [frequency_{i+1} = frequency_i * 2]. *)
Fixpoint frequency (i : nat) : R :=
  match i with
  | O => 1
  | S j => frequency j * 2
  end.

(** The sum of [amplitude_i * sample(x * frequency_i, y * frequency_i)] for
    [i = 0 .. k-1], undefined as soon as one sample is. *)
Fixpoint fractal_sum (sample : R -> R -> option R) (x y : R) (k : nat) : option R :=
  match k with
  | O => Some 0
  | S j =>
      acc <- fractal_sum sample x y j ;;
      s <- sample (x * frequency j) (y * frequency j) ;;
      Some (acc + amplitude j * s)
  end.

(** The finite sum [term 0 + term 1 + ... + term (k-1)]. *)
Fixpoint series (term : nat -> R) (k : nat) : R :=
  match k with
  | O => 0
  | S j => series term j + term j
  end.

(** The horizontal and vertical Sobel kernels, row by row. *)
Definition kernel_x : list (list R) := [[-1; 0; 1]; [-2; 0; 2]; [-1; 0; 1]].
Definition kernel_y : list (list R) := [[-1; -2; -1]; [0; 0; 0]; [1; 2; 1]].

(** The coordinate nearest to [v] inside [0 .. n-1]. *)
Definition clamp (n v : Z) : Z := Z.max 0 (Z.min (n - 1) v).

Definition offsets : list Z := [-1; 0; 1]%Z.

Definition total (l : list R) : R := fold_right Rplus 0 l.

(** The 3x3 kernel [k] applied at [(x, y)] to the height field [H] of a
    [width] by [height] image, neighbours outside the image read at the
    nearest pixel inside. *)
Definition convolve (k : list (list R)) (H : Z -> Z -> R) (width height x y : Z) : R :=
  total
    (map (fun '(krow, dy) =>
            total
              (map (fun '(kv, dx) =>
                      kv * H (clamp width (x + dx)) (clamp height (y + dy)))
                   (combine krow offsets)))
         (combine k offsets)).

End Spec.

(** ** Small instances on which the statements are tried *)

Module Demo.

Import GenerateBgTexture GenerateNormals.

Lemma shuffle_rev_permutes (s : nat) (l : list Z) :
  Permutation l (fst (rev l, S s)).
Proof. apply Permutation_rev. Qed.

Lemma quarters_unit (s : nat) :
  0 <= fst (if Nat.even s then 1 / 4 else 3 / 4, S s) < 1.
Proof. destruct (Nat.even s); simpl; lra. Qed.

(** A toy generator: the state counts the calls, [shuffle] reverses, the
    draws alternate between 1/4 and 3/4. *)
Definition rng : PyRandom := {|
  rng_state := nat;
  Random := fun seed => Z.to_nat (Z.abs seed);
  shuffle := fun s l => (rev l, S s);
  random := fun s => (if Nat.even s then 1 / 4 else 3 / 4, S s);
  shuffle_permutes := shuffle_rev_permutes;
  random_unit := quarters_unit
|}.

Lemma append_empty (n : string) : (n ++ EmptyString)%string = n.
Proof. induction n as [| c n IH]; simpl; [reflexivity | now rewrite IH]. Qed.

Lemma nonnegative_accepts_positive (size : Z) :
  (0 < size)%Z -> (0 <=? size)%Z = true.
Proof. intros H. apply Z.leb_le. lia. Qed.

(** Pillow's [Image.new]: a negative side raises [ValueError], a side of 0
    gives an empty image. *)
Definition pillow : Pillow := {|
  Image_new := fun size => (0 <=? size)%Z;
  Image_new_positive := nonnegative_accepts_positive
|}.


(** A 3x3 image whose alpha falls along both axes. *)
Definition slope : Image :=
  {| width := 3; height := 3;
     pixels := fun x y => (0, 0, 0, 100 - 2 * x - 3 * y)%Z |}.

(** A 4x4 image whose alpha grows along both axes. *)
Definition ramp : Image :=
  {| width := 4; height := 4;
     pixels := fun x y => (10, 20, 30, 40 * x + 10 * y)%Z |}.

(** A [pathlib] that finds no suffix: the whole component is the stem. *)
Definition pathlib : Main.Pathlib := {|
  Main.stem := fun n => n;
  Main.suffix := fun _ => EmptyString;
  Main.stem_suffix := append_empty
|}.

(** A system whose prints and [mkdir] return and whose image writer raises
    on an image without pixels, as Pillow's PNG writer does. *)
Definition system : System := {|
  path := string;
  print := fun _ => true;
  mkdir := fun _ => true;
  save := fun img _ => match img with [] => false | _ :: _ => true end
|}.

End Demo.

(** The pixel at [(x, y)] of a grid. *)
Definition pixel_at (g : Grid) (x y : Z) : option RGBA :=
  row <- Py.get g y ;;
  Py.get row x.

(** The shape every lattice built by [ValueNoise2D.__init__] has: a doubled
    table of 512 entries below 256 and 256 values in [0, 1). *)
Definition well_formed (noise : GenerateBgTexture.ValueNoise2D.t) : Prop :=
  length (GenerateBgTexture.ValueNoise2D.perm noise) = 512%nat /\
  Forall (fun p => (0 <= p < 256)%Z) (GenerateBgTexture.ValueNoise2D.perm noise) /\
  length (GenerateBgTexture.ValueNoise2D.values noise) = 256%nat /\
  Forall (fun v => 0 <= v < 1) (GenerateBgTexture.ValueNoise2D.values noise).

(** The value of a computation known to succeed. *)
Definition force {A : Type} (d : A) (m : option A) : A :=
  match m with
  | Some a => a
  | None => d
  end.

(** The colour the loops store for a combined noise value in [0, 1), written
    without the clamps. *)
Definition unclamped_shade (v : R) : RGBA :=
  (Py.floor (35 + 20 * v), Py.floor (30 + 15 * v), Py.floor (28 + 12 * v), 255%Z).

(** ** The per-pixel arithmetic on IEEE binary64

    The theorems of this file are about the real-number model above.  This
    module repeats the straight-line float arithmetic of one output pixel of
    [sobel_normal_map] on the kernel's binary64 numbers, so that the code can
    be run on concrete inputs with the rounding Python performs. *)

Module Binary64.

Import PrimFloat.

(** [int(v)] of a finite float: truncation toward zero ([None] where Python
    raises, on an infinity or a NaN). *)
Definition int (v : float) : option Z :=
  match FloatOps.Prim2SF v with
  | SpecFloat.S754_zero _ => Some 0%Z
  | SpecFloat.S754_finite s m e =>
      let z := if (0 <=? e)%Z
               then Z.shiftl (Z.pos m) e
               else Z.shiftr (Z.pos m) (- e) in
      Some (if s then (- z)%Z else z)
  | _ => None
  end.

Definition min (a b : float) : float := if ltb b a then b else a.
Definition max (a b : float) : float := if ltb a b then b else a.

(** [float(a)] of a small non-negative int. *)
Definition of_Z (a : Z) : float := of_uint63 (Uint63.of_Z a).

Section Pixel.

(** The closure [h]: the height read at offset [(dx, dy)]. *)
Variable h : Z -> Z -> float.
Variable strength : float.

Definition gx : float :=
  (-1.0 * h (-1) (-1) + 1.0 * h 1 (-1)
   + -2.0 * h (-1) 0 + 2.0 * h 1 0
   + -1.0 * h (-1) 1 + 1.0 * h 1 1)%float.

Definition gy : float :=
  (-1.0 * h (-1) (-1) + -2.0 * h 0 (-1) + -1.0 * h 1 (-1)
   + 1.0 * h (-1) 1 + 2.0 * h 0 1 + 1.0 * h 1 1)%float.

Definition channel (n : float) : option Z :=
  int (max 0 (min 255 ((n * 0.5 + 0.5) * 255)))%float.

(** The colour channels stored for the pixel. *)
Definition normal_pixel : option Z * option Z * option Z :=
  let gx := (gx * strength)%float in
  let gy := (gy * strength)%float in
  let nx := (- gx)%float in
  let ny := (- gy)%float in
  let nz := 1.0%float in
  let length := sqrt (nx * nx + ny * ny + nz * nz)%float in
  let nx := (nx / length)%float in
  let ny := (ny / length)%float in
  let nz := (nz / length)%float in
  (channel nx, channel ny, channel nz).

End Pixel.

(** A constant height field gives 127, 127, 255. *)
Example flat_pixel :
  normal_pixel (fun _ _ => (of_Z 0 / 255)%float) 1.0%float
  = (Some 127, Some 127, Some 255)%Z.
Proof. vm_compute. reflexivity. Qed.

Example flat_pixel_opaque :
  normal_pixel (fun _ _ => (of_Z 255 / 255)%float) 2.0%float
  = (Some 127, Some 127, Some 255)%Z.
Proof. vm_compute. reflexivity. Qed.

(** Pixel (1, 1) of the image with alpha [100 - 2x - 3y], strength 5.3125:
    the raw normal is about (1/3, 1/2, 1). *)
Example slope_pixel :
  normal_pixel (fun dx dy => (of_Z (100 - 2 * (1 + dx) - 3 * (1 + dy)) / 255)%float)
               5.3125%float
  = (Some 163, Some 182, Some 236)%Z.
Proof. vm_compute. reflexivity. Qed.

(** A constant field of height 77/255: the horizontal sum cancels exactly,
    the vertical one leaves a rounding residue of 2^-54, which a strength of
    2^47 makes visible in green and blue; at strength 0 the pixel is flat. *)
Example constant_field_residue :
  let h := fun _ _ : Z => (of_Z 77 / 255)%float in
  gx h = 0%float /\ gy h = 0x1p-54%float /\
  normal_pixel h 1.0%float = (Some 127, Some 127, Some 255)%Z /\
  normal_pixel h 0x1p47%float = (Some 127, Some 126, Some 254)%Z /\
  normal_pixel h 0%float = (Some 127, Some 127, Some 255)%Z.
Proof. vm_compute. repeat split; reflexivity. Qed.

End Binary64.

(** ** Facts about the Python primitives *)

Section PyFacts.

Lemma floor_spec (x : R) (z : Z) : IZR z <= x < IZR z + 1 -> Py.floor x = z.
Proof.
  intros [Hlo Hhi]. unfold Py.floor. symmetry.
  apply Int_part_spec. lra.
Qed.

Lemma floor_bounds (x : R) : IZR (Py.floor x) <= x < IZR (Py.floor x) + 1.
Proof.
  unfold Py.floor. destruct (base_Int_part x) as [H1 H2]. lra.
Qed.

Lemma floor_IZR (z : Z) : Py.floor (IZR z) = z.
Proof. apply floor_spec. lra. Qed.

Lemma int_nonneg (v : R) : 0 <= v -> Py.int v = Py.floor v.
Proof.
  intros Hv. unfold Py.int. destruct (Rle_dec 0 v); [reflexivity | contradiction].
Qed.

Lemma int_spec (v : R) (z : Z) : 0 <= v -> IZR z <= v < IZR z + 1 -> Py.int v = z.
Proof.
  intros Hv Hz. rewrite int_nonneg by assumption. now apply floor_spec.
Qed.

Lemma min_Rmin (a b : R) : Py.min a b = Rmin a b.
Proof.
  unfold Py.min, Rmin. destruct (Rlt_dec b a), (Rle_dec a b); lra.
Qed.

Lemma max_Rmax (a b : R) : Py.max a b = Rmax a b.
Proof.
  unfold Py.max, Rmax. destruct (Rlt_dec a b), (Rle_dec a b); lra.
Qed.

(** The clamp idiom [max(lo, min(hi, v))] is the identity inside the
    interval. *)
Lemma clamp_inside (lo hi v : R) : lo <= v -> v <= hi -> Py.max lo (Py.min hi v) = v.
Proof.
  intros H1 H2. unfold Py.max, Py.min.
  destruct (Rlt_dec v hi); destruct (Rlt_dec lo _); lra.
Qed.

Lemma clamp_range (lo hi v : R) : lo <= hi -> lo <= Py.max lo (Py.min hi v) <= hi.
Proof.
  intros H. unfold Py.max, Py.min.
  destruct (Rlt_dec v hi); destruct (Rlt_dec lo _); lra.
Qed.

Lemma range_length (n : Z) : length (Py.range n) = Z.to_nat n.
Proof. unfold Py.range. now rewrite length_map, length_seq. Qed.

Lemma range_nonpos (n : Z) : (n <= 0)%Z -> Py.range n = [].
Proof.
  intros H. unfold Py.range. replace (Z.to_nat n) with 0%nat by lia. reflexivity.
Qed.

Lemma in_range (n i : Z) : In i (Py.range n) <-> (0 <= i < n)%Z.
Proof.
  unfold Py.range. rewrite in_map_iff. split.
  - intros [k [<- Hk]]. apply in_seq in Hk. lia.
  - intros H. exists (Z.to_nat i). split; [lia | apply in_seq; lia].
Qed.

Lemma get_nonneg {A : Type} (l : list A) (i : Z) :
  (0 <= i)%Z -> Py.get l i = nth_error l (Z.to_nat i).
Proof.
  intros H. unfold Py.get. destruct (Z.ltb_spec i 0); [lia | reflexivity].
Qed.

Lemma get_map_range {A : Type} (f : Z -> A) (n i : Z) :
  (0 <= i < n)%Z -> Py.get (map f (Py.range n)) i = Some (f i).
Proof.
  intros H. rewrite get_nonneg by lia. unfold Py.range.
  rewrite map_map, nth_error_map, nth_error_seq.
  destruct (Nat.ltb_spec (Z.to_nat i) (Z.to_nat n)); [| lia].
  simpl. f_equal. f_equal. lia.
Qed.

Lemma get_Some_In {A : Type} (l : list A) (i : Z) (a : A) :
  Py.get l i = Some a -> In a l.
Proof.
  unfold Py.get. destruct (i <? 0)%Z; [destruct (_ <? 0)%Z; [discriminate |] |];
    apply nth_error_In.
Qed.

Lemma get_in_bounds {A : Type} (l : list A) (i : Z) :
  (0 <= i < Z.of_nat (length l))%Z -> exists a, Py.get l i = Some a.
Proof.
  intros H. rewrite get_nonneg by lia.
  destruct (nth_error l (Z.to_nat i)) eqn:E; [eauto |].
  apply nth_error_None in E. lia.
Qed.

Lemma sequence_map {A B : Type} (f : A -> option B) (g : A -> B) (l : list A) :
  (forall a, In a l -> f a = Some (g a)) ->
  Py.sequence (map f l) = Some (map g l).
Proof.
  induction l as [| a l IH]; intros H; simpl; [reflexivity |].
  rewrite (H a) by now left.
  rewrite IH by (intros; apply H; now right). reflexivity.
Qed.

End PyFacts.

(** ** The normal-map generator *)

Section NormalMap.

Import GenerateNormals.

Lemma pixel_at_rows {A : Type} (w hgt x y : Z) (f : Z -> Z -> A) :
  (0 <= x < w)%Z -> (0 <= y < hgt)%Z ->
  (row <- Py.get (rows w hgt f) y ;; Py.get row x) = Some (f x y).
Proof.
  intros Hx Hy. unfold rows.
  rewrite (get_map_range (fun y => map (fun x => f x y) (Py.range w))) by assumption.
  simpl. now rewrite (get_map_range (fun x => f x y)).
Qed.

Lemma sequence_rows {A : Type} (w hgt : Z) (f : Z -> Z -> option A) (g : Z -> Z -> A) :
  (forall x y, (0 <= x < w)%Z -> (0 <= y < hgt)%Z -> f x y = Some (g x y)) ->
  Py.sequence (map (fun y => Py.sequence (map (fun x => f x y) (Py.range w)))
                   (Py.range hgt))
  = Some (rows w hgt g).
Proof.
  intros Hf. unfold rows.
  apply (sequence_map _ (fun y => map (fun x => g x y) (Py.range w))).
  intros y Hy. apply in_range in Hy.
  apply (sequence_map _ (fun x => g x y)).
  intros x Hx. apply in_range in Hx. now apply Hf.
Qed.

Lemma rows_shape {A : Type} (P : A -> Prop) (w hgt : Z) (f : Z -> Z -> A) :
  (forall x y, (0 <= x < w)%Z -> (0 <= y < hgt)%Z -> P (f x y)) ->
  length (rows w hgt f) = Z.to_nat hgt /\
  Forall (fun row => length row = Z.to_nat w /\ Forall P row) (rows w hgt f).
Proof.
  intros HP. unfold rows. split.
  - now rewrite length_map, range_length.
  - apply Forall_forall. intros row Hrow.
    apply in_map_iff in Hrow. destruct Hrow as (y & <- & Hy).
    apply in_range in Hy. split.
    + now rewrite length_map, range_length.
    + apply Forall_forall. intros p Hp.
      apply in_map_iff in Hp. destruct Hp as (x & <- & Hx).
      apply in_range in Hx. now apply HP.
Qed.

(** Inside the image every neighbour read succeeds and returns the height at
    the clamped coordinates. *)
Lemma h_rows (H : Z -> Z -> R) (w hgt x y dx dy : Z) :
  (0 <= x < w)%Z -> (0 <= y < hgt)%Z ->
  h (rows w hgt H) w hgt x y dx dy
  = Some (H (Spec.clamp w (x + dx)) (Spec.clamp hgt (y + dy))).
Proof.
  intros Hx Hy. unfold h. cbv zeta.
  apply pixel_at_rows; unfold Spec.clamp; lia.
Qed.

Lemma gx_rows (H : Z -> Z -> R) (w hgt x y : Z) :
  (0 <= x < w)%Z -> (0 <= y < hgt)%Z ->
  gx (rows w hgt H) w hgt x y = Some (Spec.convolve Spec.kernel_x H w hgt x y).
Proof.
  intros Hx Hy. unfold gx. rewrite !h_rows by assumption. simpl.
  f_equal. unfold Spec.convolve, Spec.total. simpl. ring.
Qed.

Lemma gy_rows (H : Z -> Z -> R) (w hgt x y : Z) :
  (0 <= x < w)%Z -> (0 <= y < hgt)%Z ->
  gy (rows w hgt H) w hgt x y = Some (Spec.convolve Spec.kernel_y H w hgt x y).
Proof.
  intros Hx Hy. unfold gy. rewrite !h_rows by assumption. simpl.
  f_equal. unfold Spec.convolve, Spec.total. simpl. ring.
Qed.

Lemma gradient_rows (H : Z -> Z -> R) (w hgt x y : Z) (strength : R) :
  (0 <= x < w)%Z -> (0 <= y < hgt)%Z ->
  gradient (rows w hgt H) w hgt x y strength
  = Some (Spec.convolve Spec.kernel_x H w hgt x y * strength,
          Spec.convolve Spec.kernel_y H w hgt x y * strength).
Proof.
  intros Hx Hy. unfold gradient. now rewrite gx_rows, gy_rows.
Qed.


Lemma radicand_ge_1 (gx gy : R) : 1 <= - gx * - gx + - gy * - gy + 1 * 1.
Proof. nra. Qed.

Lemma normal_length_Some (gx gy : R) :
  normal_length gx gy = Some (sqrt (- gx * - gx + - gy * - gy + 1 * 1)) /\
  1 <= sqrt (- gx * - gx + - gy * - gy + 1 * 1).
Proof.
  pose proof (radicand_ge_1 gx gy) as Hr. split.
  - unfold normal_length, Py.sqrt. cbv zeta.
    destruct (Rlt_dec _ 0); [lra | reflexivity].
  - rewrite <- sqrt_1 at 1. apply sqrt_le_1_alt. exact Hr.
Qed.

Lemma div_Some (a b : R) : b <> 0 -> Py.div a b = Some (a / b).
Proof.
  intros Hb. unfold Py.div. destruct (Req_dec_T b 0); [contradiction | reflexivity].
Qed.

Lemma normal_Some (gx gy : R) :
  let len := sqrt (- gx * - gx + - gy * - gy + 1 * 1) in
  normal gx gy = Some (- gx / len, - gy / len, 1 / len).
Proof.
  destruct (normal_length_Some gx gy) as [Hl Hge].
  unfold normal. cbv zeta. rewrite Hl. simpl.
  rewrite !div_Some by lra. reflexivity.
Qed.

Lemma channel_inside (n : R) :
  -1 <= n <= 1 ->
  channel n = Py.floor ((n * 0.5 + 0.5) * 255) /\
  (0 <= channel n <= 255)%Z.
Proof.
  intros Hn. unfold channel.
  rewrite clamp_inside by lra. rewrite int_nonneg by lra.
  split; [reflexivity |].
  destruct (floor_bounds ((n * 0.5 + 0.5) * 255)) as [Hlo Hhi].
  split.
  - apply Z.lt_succ_r. apply lt_IZR. rewrite succ_IZR. lra.
  - apply le_IZR. lra.
Qed.

Lemma channel_value (n : R) (z : Z) :
  -1 <= n <= 1 -> IZR z <= (n * 0.5 + 0.5) * 255 < IZR z + 1 -> channel n = z.
Proof.
  intros Hn Hz. destruct (channel_inside n Hn) as [-> _]. now apply floor_spec.
Qed.






(** The normalized vector written out, with its length: it is a unit
    vector whose z lies in (0, 1]. *)
Lemma normal_unit_length (gx gy : R) :
  let L := sqrt (- gx * - gx + - gy * - gy + 1 * 1) in
  1 <= L /\
  normal gx gy = Some (- gx / L, - gy / L, 1 / L) /\
  - gx / L * (- gx / L) + - gy / L * (- gy / L) + 1 / L * (1 / L) = 1 /\
  0 < 1 / L <= 1.
Proof.
  cbv zeta. destruct (normal_length_Some gx gy) as [_ Hge].
  pose proof (radicand_ge_1 gx gy) as Hr.
  set (r := - gx * - gx + - gy * - gy + 1 * 1) in *.
  assert (HL : sqrt r * sqrt r = r) by (apply sqrt_sqrt; lra).
  pose proof (normal_Some gx gy) as E. cbv zeta in E. fold r in E.
  set (L := sqrt r) in *.
  assert (Hinv : 0 < / L) by (apply Rinv_0_lt_compat; lra).
  split; [exact Hge |]. split; [exact E |]. split.
  - replace (- gx / L * (- gx / L) + - gy / L * (- gy / L) + 1 / L * (1 / L))
      with (r / (L * L)) by (unfold r; field; lra).
    rewrite HL. field. lra.
  - split.
    + unfold Rdiv. lra.
    + apply (Rmult_le_reg_r L); [lra |]. unfold Rdiv.
      rewrite Rmult_assoc, Rinv_l by lra. lra.
Qed.

(** Every pixel of the image is encoded: the loop body cannot fail, the
    alpha of the source pixel is kept, red and green lie in [0, 255] and
    blue in [127, 255]. *)
Lemma normal_pixel_Some (img : Image) (strength : R) (source : string) (x y : Z) :
  (0 <= x < width img)%Z -> (0 <= y < height img)%Z ->
  exists r g b : Z,
    normal_pixel img (height_map img source) strength x y
    = Some (r, g, b, alpha (pixels img x y)) /\
    (0 <= r <= 255)%Z /\ (0 <= g <= 255)%Z /\ (127 <= b <= 255)%Z.
Proof.
  intros Hx Hy. unfold normal_pixel, height_map.
  rewrite gradient_rows by assumption. cbn [Py.bind fst snd].
  set (gx := Spec.convolve Spec.kernel_x _ _ _ x y * strength).
  set (gy := Spec.convolve Spec.kernel_y _ _ _ x y * strength).
  destruct (normal_unit_length gx gy) as (_ & -> & Hu & Hz).
  set (L := sqrt (- gx * - gx + - gy * - gy + 1 * 1)) in *.
  set (nx := - gx / L) in *. set (ny := - gy / L) in *. set (nz := 1 / L) in *.
  cbn [Py.bind]. unfold encode. cbv zeta.
  assert (Bx : -1 <= nx <= 1) by (split; nra).
  assert (By : -1 <= ny <= 1) by (split; nra).
  assert (Bz : -1 <= nz <= 1) by lra.
  destruct (channel_inside nx Bx) as [_ Hr].
  destruct (channel_inside ny By) as [_ Hg].
  destruct (channel_inside nz Bz) as [Eb Hb].
  exists (channel nx), (channel ny), (channel nz).
  repeat split; try lia.
  rewrite Eb. destruct (floor_bounds ((nz * 0.5 + 0.5) * 255)) as [_ Hhi].
  apply Z.lt_succ_r. apply lt_IZR. rewrite succ_IZR. lra.
Qed.

Lemma sobel_normal_map_rows (img : Image) (strength : R) (source : string) :
  sobel_normal_map img strength source
  = Some (rows (width img) (height img)
            (fun x y =>
               force (0, 0, 0, 0)%Z
                 (normal_pixel img (height_map img source) strength x y))).
Proof.
  unfold sobel_normal_map. cbv zeta. apply sequence_rows.
  intros x y Hx Hy.
  destruct (normal_pixel_Some img strength source x y Hx Hy) as (r & g & b & -> & _).
  reflexivity.
Qed.




End NormalMap.

(** ** The value-noise texture generator *)

Section Noise.

Import GenerateBgTexture.
Import GenerateBgTexture.ValueNoise2D.

Variable rng : PyRandom.

Lemma land_255_range (i : Z) : (0 <= Z.land i 255 < 256)%Z.
Proof.
  change 255%Z with (Z.ones 8). rewrite Z.land_ones by lia.
  apply Z.mod_pos_bound. reflexivity.
Qed.

Lemma draw_spec (n : nat) (s : rng_state rng) :
  length (fst (draw rng n s)) = n /\
  Forall (fun v => 0 <= v < 1) (fst (draw rng n s)).
Proof.
  revert s. induction n as [| n IH]; intros s; simpl.
  - split; [reflexivity | constructor].
  - pose proof (random_unit rng s) as Hr.
    destruct (random rng s) as [v s1]. simpl in Hr.
    destruct (IH s1) as [Hlen Hall].
    destruct (draw rng n s1) as [vs s2]. simpl in *.
    split; [now rewrite Hlen | now constructor].
Qed.

Lemma init_well_formed (seed : Z) (w : rng_state rng) :
  well_formed (fst (__init__ rng seed w)).
Proof.
  unfold __init__.
  pose proof (shuffle_permutes rng (Random rng seed) (Py.range 256)) as Hp.
  destruct (shuffle rng (Random rng seed) (Py.range 256)) as [p r1].
  simpl in Hp.
  destruct (draw_spec 256 r1) as [Hlen Hall].
  destruct (draw rng 256 r1) as [vs r2]. simpl in Hlen, Hall.
  unfold well_formed. simpl.
  assert (Hl : length p = 256%nat).
  { rewrite <- (Permutation_length Hp). now rewrite range_length. }
  repeat split; try assumption.
  - rewrite length_app, Hl. reflexivity.
  - apply Forall_app. assert (Hf : Forall (fun q => (0 <= q < 256)%Z) p).
    { apply Forall_forall. intros q Hq. apply (in_range 256 q).
      apply (Permutation_in q (Permutation_sym Hp) Hq). }
    now split.
Qed.

(** The world state comes back unchanged and the lattice does not depend on
    it. *)
Lemma init_ignores_world (seed : Z) (w1 w2 : rng_state rng) :
  fst (__init__ rng seed w1) = fst (__init__ rng seed w2) /\
  snd (__init__ rng seed w1) = w1.
Proof.
  unfold __init__.
  destruct (shuffle rng (Random rng seed) (Py.range 256)) as [p r1].
  destruct (draw rng 256 r1) as [vs r2]. split; reflexivity.
Qed.

Lemma hash_Some (noise : t) (ix iy : Z) :
  well_formed noise ->
  exists v, _hash noise ix iy = Some v /\ In v (values noise) /\ 0 <= v < 1.
Proof.
  intros (Hpl & Hpr & Hvl & Hvr). unfold _hash.
  pose proof (land_255_range ix) as Hix.
  pose proof (land_255_range iy) as Hiy.
  destruct (get_in_bounds (perm noise) (Z.land ix 255)) as [a Ha]; [lia |].
  rewrite Ha. simpl.
  assert (Har : (0 <= a < 256)%Z).
  { apply get_Some_In in Ha. revert a Ha. now apply Forall_forall. }
  destruct (get_in_bounds (perm noise) (a + Z.land iy 255)) as [b Hb]; [lia |].
  rewrite Hb. simpl.
  pose proof (land_255_range b) as Hbr.
  destruct (get_in_bounds (values noise) (Z.land b 255)) as [v Hv]; [lia |].
  exists v. split; [exact Hv |].
  apply get_Some_In in Hv. split; [exact Hv |].
  revert v Hv. now apply Forall_forall.
Qed.

Lemma smoothstep_unit (t : R) : 0 <= t <= 1 -> 0 <= smoothstep t <= 1.
Proof.
  intros Ht. unfold smoothstep.
  assert (0 <= t * t) by nra.
  assert (0 <= (1 - t) * (1 - t)) by nra.
  split.
  - apply Rmult_le_pos; lra.
  - replace (t * t * (3 - 2 * t)) with (1 - (1 - t) * (1 - t) * (1 + 2 * t)) by ring.
    assert (0 <= (1 - t) * (1 - t) * (1 + 2 * t)) by (apply Rmult_le_pos; lra).
    lra.
Qed.

Lemma lerp_unit (a b t : R) :
  0 <= a < 1 -> 0 <= b < 1 -> 0 <= t <= 1 -> 0 <= lerp a b t < 1.
Proof.
  intros Ha Hb Ht. unfold lerp.
  replace (a + (b - a) * t) with (a * (1 - t) + b * t) by ring.
  assert (0 <= a * (1 - t)) by (apply Rmult_le_pos; lra).
  assert (0 <= b * t) by (apply Rmult_le_pos; lra).
  assert (a * (1 - t) <= 1 * (1 - t)) by (apply Rmult_le_compat_r; lra).
  assert (b * t <= 1 * t) by (apply Rmult_le_compat_r; lra).
  split; [lra |].
  destruct (Rlt_dec t 1) as [Hlt | Hge].
  - assert (a * (1 - t) < 1 * (1 - t)) by (apply Rmult_lt_compat_r; lra). lra.
  - assert (t = 1) by lra. subst t. lra.
Qed.

Lemma lerp_0 (a b : R) : lerp a b 0 = a.
Proof. unfold lerp. ring. Qed.

Lemma smoothstep_0 : smoothstep 0 = 0.
Proof. unfold smoothstep. ring. Qed.

Lemma sample_range (noise : t) (x y : R) :
  well_formed noise ->
  exists v, sample noise x y = Some v /\ 0 <= v < 1.
Proof.
  intros Hwf. unfold sample. cbv zeta.
  destruct (hash_Some noise (Py.floor x) (Py.floor y) Hwf) as (v00 & -> & _ & H00).
  destruct (hash_Some noise (Py.floor x + 1) (Py.floor y) Hwf) as (v10 & -> & _ & H10).
  destruct (hash_Some noise (Py.floor x) (Py.floor y + 1) Hwf) as (v01 & -> & _ & H01).
  destruct (hash_Some noise (Py.floor x + 1) (Py.floor y + 1) Hwf) as (v11 & -> & _ & H11).
  simpl. eexists. split; [reflexivity |].
  pose proof (floor_bounds x) as Hfx. pose proof (floor_bounds y) as Hfy.
  assert (Hsx : 0 <= smoothstep (x - IZR (Py.floor x)) <= 1)
    by (apply smoothstep_unit; lra).
  assert (Hsy : 0 <= smoothstep (y - IZR (Py.floor y)) <= 1)
    by (apply smoothstep_unit; lra).
  apply lerp_unit; [apply lerp_unit | apply lerp_unit |]; assumption.
Qed.

Lemma sample_at_lattice (noise : t) (ix iy : Z) :
  well_formed noise ->
  sample noise (IZR ix) (IZR iy) = _hash noise ix iy.
Proof.
  intros Hwf. unfold sample. cbv zeta. rewrite !floor_IZR.
  destruct (hash_Some noise ix iy Hwf) as (v00 & -> & _).
  destruct (hash_Some noise (ix + 1) iy Hwf) as (v10 & -> & _).
  destruct (hash_Some noise ix (iy + 1) Hwf) as (v01 & -> & _).
  destruct (hash_Some noise (ix + 1) (iy + 1) Hwf) as (v11 & -> & _).
  simpl. f_equal.
  replace (IZR ix - IZR ix) with 0 by ring.
  replace (IZR iy - IZR iy) with 0 by ring.
  now rewrite smoothstep_0, !lerp_0.
Qed.

End Noise.

Section Fbm.

Import GenerateBgTexture.
Import GenerateBgTexture.ValueNoise2D.

Variable noise : t.
Variables x y : R.

(** The loop started at octave [i] with the sum of the first [i] terms ends
    with the sum of the first [i + n] terms. *)
Lemma fbm_loop_from (n i : nat) :
  (acc <- Spec.fractal_sum (sample noise) x y i ;;
   fbm_loop noise x y n acc (Spec.amplitude i) (Spec.frequency i))
  = Spec.fractal_sum (sample noise) x y (i + n).
Proof.
  revert i. induction n as [| n IH]; intros i.
  - rewrite Nat.add_0_r. simpl.
    destruct (Spec.fractal_sum (sample noise) x y i); reflexivity.
  - replace (i + S n)%nat with (S i + n)%nat by lia.
    rewrite <- IH. simpl.
    destruct (Spec.fractal_sum (sample noise) x y i) as [acc |]; simpl;
      [| reflexivity].
    destruct (sample noise (x * Spec.frequency i) (y * Spec.frequency i)) as [s |];
      simpl; [| reflexivity].
    replace (Spec.amplitude i * 0.5) with (Spec.amplitude i / 2) by lra.
    reflexivity.
Qed.

Lemma fbm_fractal_sum (k : Z) :
  fbm noise x y k = Spec.fractal_sum (sample noise) x y (Z.to_nat k).
Proof.
  unfold fbm. exact (fbm_loop_from (Z.to_nat k) 0).
Qed.

Lemma amplitude_closed (i : nat) : Spec.amplitude i = 0.5 * (1 / 2) ^ i.
Proof.
  induction i as [| i IH]; simpl; [lra |]. rewrite IH. lra.
Qed.

Lemma frequency_closed (i : nat) : Spec.frequency i = 2 ^ i.
Proof.
  induction i as [| i IH]; simpl; [lra |]. rewrite IH. lra.
Qed.

Hypothesis Hwf : well_formed noise.

(** On a well-formed lattice no sample fails, and the sum is the plain finite
    sum of the octaves. *)
Lemma fractal_sum_series (k : nat) :
  Spec.fractal_sum (sample noise) x y k
  = Some (Spec.series
            (fun i => Spec.amplitude i
                      * force 0 (sample noise (x * Spec.frequency i)
                                              (y * Spec.frequency i)))
            k).
Proof.
  induction k as [| k IH]; simpl; [reflexivity |].
  rewrite IH. simpl.
  destruct (sample_range noise (x * Spec.frequency k) (y * Spec.frequency k) Hwf)
    as (s & -> & _).
  reflexivity.
Qed.

(** Each term lies in [0, amplitude_i), so [k] octaves sum to less than
    [1 - 2^-k]. *)
Lemma series_range (k : nat) :
  let term := fun i => Spec.amplitude i
                       * force 0 (sample noise (x * Spec.frequency i)
                                               (y * Spec.frequency i)) in
  0 <= Spec.series term k <= 1 - (1 / 2) ^ k /\
  ((0 < k)%nat -> Spec.series term k < 1 - (1 / 2) ^ k).
Proof.
  cbv zeta. induction k as [| k [[IHlo IHhi] IHlt]].
  - simpl. split; [lra | lia].
  - destruct (sample_range noise (x * Spec.frequency k) (y * Spec.frequency k) Hwf)
      as (s & Es & Hs).
    assert (Hp : 0 < (1 / 2) ^ k) by (apply pow_lt; lra).
    pose proof (amplitude_closed k) as HA.
    assert (Hterm : 0 <= Spec.amplitude k * s < Spec.amplitude k).
    { split; [apply Rmult_le_pos; lra |].
      rewrite <- (Rmult_1_r (Spec.amplitude k)) at 2.
      apply Rmult_lt_compat_l; lra. }
    assert (Hlt : Spec.series
                    (fun i => Spec.amplitude i
                              * force 0 (sample noise (x * Spec.frequency i)
                                                      (y * Spec.frequency i)))
                    (S k) < 1 - (1 / 2) ^ S k).
    { simpl. rewrite Es. simpl. lra. }
    split; [split |].
    + simpl. rewrite Es. simpl. lra.
    + lra.
    + intros _. exact Hlt.
Qed.

Lemma fbm_range (k : Z) :
  (1 <= k)%Z ->
  exists f, fbm noise x y k = Some f /\ 0 <= f < 1 - (1 / 2) ^ Z.to_nat k.
Proof.
  intros Hk. rewrite fbm_fractal_sum, fractal_sum_series.
  eexists. split; [reflexivity |].
  destruct (series_range (Z.to_nat k)) as [[Hlo _] Hlt].
  split; [exact Hlo | apply Hlt; lia].
Qed.

End Fbm.

Section Texture.

Import GenerateBgTexture.
Import GenerateBgTexture.ValueNoise2D.

Lemma combined_range (noise1 noise2 noise3 : t) (size x y : Z) :
  well_formed noise1 -> well_formed noise2 -> well_formed noise3 ->
  (0 < size)%Z ->
  exists v, combined noise1 noise2 noise3 size x y = Some v /\ 0 <= v < 1.
Proof.
  intros H1 H2 H3 Hsize. unfold combined.
  assert (Hs : IZR size <> 0) by (apply not_0_IZR; lia).
  rewrite !div_Some by exact Hs. simpl.
  destruct (fbm_range noise1 (IZR x / IZR size * 8) (IZR y / IZR size * 8) H1 5)
    as (f1 & -> & Hf1); [lia |].
  destruct (fbm_range noise2 (IZR x / IZR size * 8 * 2) (IZR y / IZR size * 8 * 2) H2 4)
    as (f2 & -> & Hf2); [lia |].
  destruct (fbm_range noise3 (IZR x / IZR size * 8 * 6) (IZR y / IZR size * 8 * 6) H3 3)
    as (f3 & -> & Hf3); [lia |].
  simpl in *. eexists. split; [reflexivity | lra].
Qed.

(** For a combined value in [0, 1) none of the four clamps changes its
    argument, and the channels stay near the base colour. *)
Lemma shade_inside (v : R) :
  0 <= v < 1 ->
  Py.max 0 (Py.min 1 v) = v /\
  Py.max 0 (Py.min 255 (base_r + var_r * v)) = base_r + var_r * v /\
  Py.max 0 (Py.min 255 (base_g + var_g * v)) = base_g + var_g * v /\
  Py.max 0 (Py.min 255 (base_b + var_b * v)) = base_b + var_b * v /\
  shade v = unclamped_shade v /\
  (35 <= red (shade v) <= 55)%Z /\
  (30 <= green (shade v) <= 45)%Z /\
  (28 <= blue (shade v) <= 40)%Z /\
  alpha (shade v) = 255%Z.
Proof.
  intros Hv. unfold base_r, base_g, base_b, var_r, var_g, var_b.
  assert (E : shade v = unclamped_shade v).
  { unfold shade, unclamped_shade, base_r, base_g, base_b, var_r, var_g, var_b.
    cbv zeta. rewrite (clamp_inside 0 1 v) by lra.
    rewrite !clamp_inside by lra. rewrite !int_nonneg by lra. reflexivity. }
  repeat (split; [apply clamp_inside; lra |]).
  split; [exact E |]. rewrite E. unfold unclamped_shade. simpl.
  destruct (floor_bounds (35 + 20 * v)) as [Hr1 Hr2].
  destruct (floor_bounds (30 + 15 * v)) as [Hg1 Hg2].
  destruct (floor_bounds (28 + 12 * v)) as [Hb1 Hb2].
  repeat split;
    try (apply Z.lt_succ_r; apply lt_IZR; rewrite succ_IZR; lra);
    try (apply le_IZR; lra).
Qed.

Variable rng : PyRandom.
Variable pil : Pillow.

(** [generate_texture] with the three lattices named: the world state plays
    no part. *)
Lemma generate_texture_unfold (size seed : Z) (w : rng_state rng) :
  generate_texture rng pil size seed w
  = (if Image_new pil size
     then
       Py.sequence
         (map (fun y =>
                 Py.sequence
                   (map (fun x =>
                           texel (fst (__init__ rng seed w))
                                 (fst (__init__ rng (seed + 137) w))
                                 (fst (__init__ rng (seed + 271) w))
                                 size x y)
                        (Py.range size)))
              (Py.range size))
     else None,
     w).
Proof.
  unfold generate_texture.
  destruct (init_ignores_world rng seed w w) as [_ E1].
  destruct (__init__ rng seed w) as [n1 w1]. simpl in E1. subst w1.
  destruct (init_ignores_world rng (seed + 137) w w) as [_ E2].
  destruct (__init__ rng (seed + 137) w) as [n2 w2]. simpl in E2. subst w2.
  destruct (init_ignores_world rng (seed + 271) w w) as [_ E3].
  destruct (__init__ rng (seed + 271) w) as [n3 w3]. simpl in E3. subst w3.
  simpl. destruct (Image_new pil size); reflexivity.
Qed.

Lemma texel_Some (size seed : Z) (w : rng_state rng) (x y : Z) :
  (0 < size)%Z ->
  exists v,
    combined (fst (__init__ rng seed w)) (fst (__init__ rng (seed + 137) w))
             (fst (__init__ rng (seed + 271) w)) size x y = Some v /\
    0 <= v < 1 /\
    texel (fst (__init__ rng seed w)) (fst (__init__ rng (seed + 137) w))
          (fst (__init__ rng (seed + 271) w)) size x y = Some (shade v).
Proof.
  intros Hsize.
  destruct (combined_range (fst (__init__ rng seed w))
              (fst (__init__ rng (seed + 137) w))
              (fst (__init__ rng (seed + 271) w)) size x y) as (v & Ev & Hv);
    try apply init_well_formed; try assumption.
  exists v. split; [exact Ev |]. split; [exact Hv |].
  unfold texel. rewrite Ev. reflexivity.
Qed.

(** For a positive size the texture is the full [size] by [size] grid of the
    pixels computed by the loop body. *)
Lemma generate_texture_rows (size seed : Z) (w : rng_state rng) :
  (0 < size)%Z ->
  fst (generate_texture rng pil size seed w)
  = Some (rows size size
            (fun x y =>
               force (0, 0, 0, 0)%Z
                 (texel (fst (__init__ rng seed w))
                        (fst (__init__ rng (seed + 137) w))
                        (fst (__init__ rng (seed + 271) w)) size x y))).
Proof.
  intros Hsize. rewrite generate_texture_unfold. simpl.
  rewrite (Image_new_positive pil size Hsize).
  apply sequence_rows. intros x y _ _.
  destruct (texel_Some size seed w x y Hsize) as (v & _ & _ & ->). reflexivity.
Qed.

(** For a size that is not positive the loops do not run: the outcome is
    the library's answer to [Image.new] alone. *)
Lemma generate_texture_nonpositive (size seed : Z) (w : rng_state rng) :
  (size <= 0)%Z ->
  fst (generate_texture rng pil size seed w)
  = (if Image_new pil size then Some [] else None).
Proof.
  intros Hsize. rewrite generate_texture_unfold. simpl.
  now rewrite (range_nonpos size Hsize).
Qed.

End Texture.

(** ** The model run on small inputs *)

Section Examples.

Import GenerateBgTexture GenerateBgTexture.ValueNoise2D GenerateNormals.

Example range_3 : Py.range 3 = [0; 1; 2]%Z.
Proof. reflexivity. Qed.

Example get_from_the_end : Py.get [10; 20; 30]%Z (-1) = Some 30%Z.
Proof. reflexivity. Qed.

Example get_out_of_range : Py.get [10; 20; 30]%Z 3 = None.
Proof. reflexivity. Qed.

Example int_truncates_toward_zero : Py.int (- (5 / 2)) = (-2)%Z /\ Py.int (5 / 2) = 2%Z.
Proof.
  split.
  - unfold Py.int. destruct (Rle_dec 0 (- (5 / 2))) as [H | _]; [lra |].
    fold (Py.floor (- - (5 / 2))).
    rewrite (floor_spec (- - (5 / 2)) 2); [reflexivity | lra].
  - apply int_spec; lra.
Qed.

(** The toy lattice of seed 42: the table is 255, 254, ..., 0 twice over and
    the values alternate 3/4, 1/4, ... *)
Example demo_perm :
  perm (fst (__init__ Demo.rng 42 0%nat)) = rev (Py.range 256) ++ rev (Py.range 256).
Proof. reflexivity. Qed.

Example demo_hash_0_0 : _hash (fst (__init__ Demo.rng 42 0%nat)) 0 0 = Some (3 / 4).
Proof. reflexivity. Qed.

Example demo_hash_1_0 : _hash (fst (__init__ Demo.rng 42 0%nat)) 1 0 = Some (1 / 4).
Proof. reflexivity. Qed.

(** A negative cell is hashed through [& 255] like any other. *)
Example demo_hash_negative :
  _hash (fst (__init__ Demo.rng 42 0%nat)) (-1) (-1) = Some (3 / 4).
Proof. reflexivity. Qed.

(** Half way between the lattice points (0, 0) and (1, 0). *)
Example demo_sample_half :
  sample (fst (__init__ Demo.rng 42 0%nat)) (1 / 2) 0 = Some (1 / 2).
Proof.
  unfold sample. cbv zeta.
  rewrite (floor_spec (1 / 2) 0), (floor_spec 0 0) by lra.
  change (_hash (fst (__init__ Demo.rng 42 0%nat)) 0 0) with (Some (3 / 4)).
  change (_hash (fst (__init__ Demo.rng 42 0%nat)) (0 + 1) 0) with (Some (1 / 4)).
  change (_hash (fst (__init__ Demo.rng 42 0%nat)) 0 (0 + 1)) with (Some (1 / 4)).
  change (_hash (fst (__init__ Demo.rng 42 0%nat)) (0 + 1) (0 + 1)) with (Some (3 / 4)).
  simpl. f_equal. unfold lerp, smoothstep. lra.
Qed.

(** The Sobel gradient of the alpha ramp at the interior pixel (1, 1) and at
    the corner (0, 0), where the clamped reads flatten it. *)
Example ramp_gradient_interior :
  gradient (height_map Demo.ramp "alpha") 4 4 1 1 1 = Some (320 / 255, 80 / 255).
Proof.
  unfold height_map. simpl width. simpl height.
  rewrite gradient_rows by lia.
  unfold Spec.convolve, Spec.total, Spec.clamp. simpl. do 2 f_equal; lra.
Qed.

Example ramp_gradient_corner :
  gradient (height_map Demo.ramp "alpha") 4 4 0 0 1 = Some (160 / 255, 40 / 255).
Proof.
  unfold height_map. simpl width. simpl height.
  rewrite gradient_rows by lia.
  unfold Spec.convolve, Spec.total, Spec.clamp. simpl. do 2 f_equal; lra.
Qed.

(** The raw normal (1/3, 1/2, 1) has length 7/6. *)
Example normal_of_thirds : normal (- (1 / 3)) (- (1 / 2)) = Some (2 / 7, 3 / 7, 6 / 7).
Proof.
  rewrite normal_Some.
  replace (- - (1 / 3) * - - (1 / 3) + - - (1 / 2) * - - (1 / 2) + 1 * 1)
    with ((7 / 6) * (7 / 6)) by lra.
  rewrite sqrt_square by lra.
  f_equal. f_equal; [f_equal |]; lra.
Qed.

(** Pixel (1, 1) of the falling slope at strength 85/16: the scaled gradient
    is (-1/3, -1/2) and the pixel stored is (163, 182, 236, 95). *)
Example slope_normal_pixel :
  normal_pixel Demo.slope (height_map Demo.slope "alpha") (85 / 16) 1 1
  = Some (163, 182, 236, 95)%Z.
Proof.
  unfold normal_pixel, height_map. simpl width. simpl height.
  rewrite gradient_rows by lia.
  replace (Spec.convolve Spec.kernel_x _ 3 3 1 1 * (85 / 16)) with (- (1 / 3))
    by (unfold Spec.convolve, Spec.total, Spec.clamp; simpl; lra).
  replace (Spec.convolve Spec.kernel_y _ 3 3 1 1 * (85 / 16)) with (- (1 / 2))
    by (unfold Spec.convolve, Spec.total, Spec.clamp; simpl; lra).
  cbn [Py.bind fst snd]. rewrite normal_of_thirds. cbn [Py.bind].
  unfold encode. cbv zeta.
  rewrite (channel_value (2 / 7) 163), (channel_value (3 / 7) 182),
    (channel_value (6 / 7) 236) by lra.
  reflexivity.
Qed.

End Examples.

(** ** Claims about the normal-map generator *)

Section NormalMapClaims.

Import GenerateNormals.

(** C1, as the code has it.  For every unit normal vector [(nx, ny, nz)] and
    source alpha [a], the encoding step produces a pixel [(r, g, b, a)] whose
    colour channels are the remapped components [(n * 0.5 + 0.5) * 255]
    rounded down to an integer (truncated, not rounded to the nearest
    integer); each channel lies in [0, 255], so the clamps leave the value
    untouched. *)
Theorem encode_truncates (nx ny nz : R) (a : Z) :
  nx * nx + ny * ny + nz * nz = 1 ->
  exists r g b : Z,
    encode nx ny nz a = (r, g, b, a) /\
    r = Py.floor ((nx * 0.5 + 0.5) * 255) /\
    g = Py.floor ((ny * 0.5 + 0.5) * 255) /\
    b = Py.floor ((nz * 0.5 + 0.5) * 255) /\
    IZR r <= (nx * 0.5 + 0.5) * 255 < IZR r + 1 /\
    IZR g <= (ny * 0.5 + 0.5) * 255 < IZR g + 1 /\
    IZR b <= (nz * 0.5 + 0.5) * 255 < IZR b + 1 /\
    (0 <= r <= 255)%Z /\ (0 <= g <= 255)%Z /\ (0 <= b <= 255)%Z.
Proof.
  intros Hunit.
  assert (Hx : -1 <= nx <= 1) by (split; nra).
  assert (Hy : -1 <= ny <= 1) by (split; nra).
  assert (Hz : -1 <= nz <= 1) by (split; nra).
  destruct (channel_inside nx Hx) as [Ex Bx].
  destruct (channel_inside ny Hy) as [Ey By].
  destruct (channel_inside nz Hz) as [Ez Bz].
  exists (channel nx), (channel ny), (channel nz).
  repeat split; try assumption; try reflexivity; try lia;
    try (rewrite Ex; apply floor_bounds);
    try (rewrite Ey; apply floor_bounds);
    try (rewrite Ez; apply floor_bounds).
Qed.

Lemma encode_truncates_witness :
  exists r g b : Z,
    encode (2 / 7) (3 / 7) (6 / 7) 255 = (r, g, b, 255%Z) /\
    r = Py.floor ((2 / 7 * 0.5 + 0.5) * 255) /\
    g = Py.floor ((3 / 7 * 0.5 + 0.5) * 255) /\
    b = Py.floor ((6 / 7 * 0.5 + 0.5) * 255) /\
    IZR r <= (2 / 7 * 0.5 + 0.5) * 255 < IZR r + 1 /\
    IZR g <= (3 / 7 * 0.5 + 0.5) * 255 < IZR g + 1 /\
    IZR b <= (6 / 7 * 0.5 + 0.5) * 255 < IZR b + 1 /\
    (0 <= r <= 255)%Z /\ (0 <= g <= 255)%Z /\ (0 <= b <= 255)%Z.
Proof.
  apply (encode_truncates (2 / 7) (3 / 7) (6 / 7) 255). lra.
Defined.

(** C1, as the specification words it, fails: the unit normal
    [(2/7, 3/7, 6/7)] (the normalized [(1/3, 1/2, 1)], which pixel (1, 1) of
    the falling slope has at strength 85/16) is encoded as
    [(163, 182, 236, a)], while its remapped red component 163.93 has 164 as
    its only nearest integer, and its blue component 236.79 has 237. *)
Lemma encode_is_not_rounding :
  2 / 7 * (2 / 7) + 3 / 7 * (3 / 7) + 6 / 7 * (6 / 7) = 1 /\
  normal_pixel Demo.slope (height_map Demo.slope "alpha") (85 / 16) 1 1
  = Some (163, 182, 236, 95)%Z /\
  encode (2 / 7) (3 / 7) (6 / 7) 255 = (163, 182, 236, 255)%Z /\
  ~ Spec.nearest_integer ((2 / 7 * 0.5 + 0.5) * 255)
      (red (encode (2 / 7) (3 / 7) (6 / 7) 255)) /\
  ~ Spec.nearest_integer ((6 / 7 * 0.5 + 0.5) * 255)
      (blue (encode (2 / 7) (3 / 7) (6 / 7) 255)).
Proof.
  assert (E : encode (2 / 7) (3 / 7) (6 / 7) 255 = (163, 182, 236, 255)%Z).
  { unfold encode. cbv zeta.
    rewrite (channel_value (2 / 7) 163), (channel_value (3 / 7) 182),
      (channel_value (6 / 7) 236) by lra.
    reflexivity. }
  split; [lra |]. split; [exact slope_normal_pixel |].
  split; [exact E |]. rewrite E. simpl.
  split; intros Hn.
  - specialize (Hn 164%Z). revert Hn. unfold Rabs.
    destruct (Rcase_abs _), (Rcase_abs _); lra.
  - specialize (Hn 237%Z). revert Hn. unfold Rabs.
    destruct (Rcase_abs _), (Rcase_abs _); lra.
Qed.




(** C6.  For every height field [H] of a [w] by [hgt] image, every pixel
    [(x, y)] of it and every strength, [gx] and [gy] are the 3x3 Sobel
    convolutions of [H] with neighbour coordinates outside the image clamped
    to the nearest edge pixel, then multiplied by the strength; every
    neighbour read returns the height at the clamped coordinates, and at
    pixel [(0, 0)] the read [h(-1, -1)] returns [H 0 0]. *)
Theorem sobel_is_clamped_convolution (H : Z -> Z -> R) (w hgt x y : Z) (strength : R) :
  (0 <= x < w)%Z -> (0 <= y < hgt)%Z ->
  gx (rows w hgt H) w hgt x y = Some (Spec.convolve Spec.kernel_x H w hgt x y) /\
  gy (rows w hgt H) w hgt x y = Some (Spec.convolve Spec.kernel_y H w hgt x y) /\
  gradient (rows w hgt H) w hgt x y strength
  = Some (Spec.convolve Spec.kernel_x H w hgt x y * strength,
          Spec.convolve Spec.kernel_y H w hgt x y * strength) /\
  (forall dx dy,
     h (rows w hgt H) w hgt x y dx dy
     = Some (H (Spec.clamp w (x + dx)) (Spec.clamp hgt (y + dy)))) /\
  h (rows w hgt H) w hgt 0 0 (-1) (-1) = Some (H 0%Z 0%Z).
Proof.
  intros Hx Hy. repeat split.
  - now apply gx_rows.
  - now apply gy_rows.
  - now apply gradient_rows.
  - intros dx dy. now apply h_rows.
  - rewrite h_rows by lia. unfold Spec.clamp.
    replace (Z.max 0 (Z.min (w - 1) (0 + -1))) with 0%Z by lia.
    replace (Z.max 0 (Z.min (hgt - 1) (0 + -1))) with 0%Z by lia.
    reflexivity.
Qed.

Lemma sobel_is_clamped_convolution_witness :
  let H := fun x y : Z => IZR (40 * x + 10 * y) / 255 in
  gx (rows 4 4 H) 4 4 0 0 = Some (Spec.convolve Spec.kernel_x H 4 4 0 0) /\
  gy (rows 4 4 H) 4 4 0 0 = Some (Spec.convolve Spec.kernel_y H 4 4 0 0) /\
  gradient (rows 4 4 H) 4 4 0 0 2
  = Some (Spec.convolve Spec.kernel_x H 4 4 0 0 * 2,
          Spec.convolve Spec.kernel_y H 4 4 0 0 * 2) /\
  (forall dx dy,
     h (rows 4 4 H) 4 4 0 0 dx dy
     = Some (H (Spec.clamp 4 (0 + dx)) (Spec.clamp 4 (0 + dy)))) /\
  h (rows 4 4 H) 4 4 0 0 (-1) (-1) = Some (H 0%Z 0%Z).
Proof.
  exact (sobel_is_clamped_convolution
           (fun x y : Z => IZR (40 * x + 10 * y) / 255) 4 4 0 0 2
           ltac:(lia) ltac:(lia)).
Defined.

(** C9.  For every gradient [(gx, gy)], whatever height field, pixel and
    strength it comes from, the length of the raw normal [(-gx, -gy, 1.0)]
    is computed, is at least 1 and so is not zero, and the three divisions
    by it succeed: normalization never divides by zero. *)
Theorem normal_length_at_least_1 (gx gy : R) :
  exists len : R,
    normal_length gx gy = Some len /\
    1 <= len /\
    len <> 0 /\
    normal gx gy = Some (- gx / len, - gy / len, 1 / len).
Proof.
  destruct (normal_length_Some gx gy) as [Hl Hge].
  exists (sqrt (- gx * - gx + - gy * - gy + 1 * 1)).
  repeat split; [exact Hl | exact Hge | lra | apply normal_Some].
Qed.

End NormalMapClaims.

(** ** Claims about the texture generator *)

Section TextureClaims.

Import GenerateBgTexture.
Import GenerateBgTexture.ValueNoise2D.

(** C3, as the code has it.  The generator has no size check of its own.
    For every size [n <= 0], [main] prints its banner and calls
    [generate_texture], which builds the three noise fields and asks the
    imaging library for an [n] by [n] image.  If [Image.new] raises, the run
    fails there, before any pixel is computed.  If it returns an image, both
    pixel loops run zero times, [generate_texture] returns the image without
    a pixel computed, and [main] goes on to create the output directory and
    to call [img.save] on the empty image: the run then fails only if
    [mkdir], [save] or the closing [print] raises. *)
Theorem size_is_not_checked (rng : PyRandom) (pil : Pillow) (sys : System)
    (size seed : Z) (output : path sys) (w : rng_state rng) :
  (size <= 0)%Z ->
  fst (generate_texture rng pil size seed w)
  = (if Image_new pil size then Some [] else None) /\
  main rng pil sys size seed output w
  = if print sys (Generating size seed)
    then
      if Image_new pil size
      then
        if mkdir sys output
        then
          if save sys [] output
          then if print sys (Done output) then Returned else Raised AtDonePrint
          else Raised AtSave
        else Raised AtMkdir
      else Raised AtGenerateTexture
    else Raised AtBanner.
Proof.
  intros Hsize.
  pose proof (generate_texture_nonpositive rng pil size seed w Hsize) as E.
  split; [exact E |].
  unfold main. destruct (print sys (Generating size seed)); [| reflexivity].
  destruct (generate_texture rng pil size seed w) as [img w']. simpl in E.
  subst img. destruct (Image_new pil size); reflexivity.
Qed.

Lemma size_is_not_checked_witness :
  fst (generate_texture Demo.rng Demo.pillow (-3) 42 0%nat)
  = (if Image_new Demo.pillow (-3) then Some [] else None) /\
  main Demo.rng Demo.pillow Demo.system (-3) 42 "bg.png"%string 0%nat
  = if print Demo.system (Generating (-3) 42)
    then
      if Image_new Demo.pillow (-3)
      then
        if mkdir Demo.system "bg.png"%string
        then
          if save Demo.system [] "bg.png"%string
          then
            if print Demo.system (Done "bg.png"%string)
            then Returned else Raised AtDonePrint
          else Raised AtSave
        else Raised AtMkdir
      else Raised AtGenerateTexture
    else Raised AtBanner.
Proof.
  apply (size_is_not_checked Demo.rng Demo.pillow Demo.system (-3) 42
           "bg.png"%string 0%nat).
  lia.
Defined.

(** C3, as the specification words it, fails: the request for a 0x0
    texture is not rejected before synthesis.  With an [Image.new] that
    accepts a size of 0 and an image writer that raises on an image without
    pixels (as Pillow's do), [generate_texture] returns the empty image, the
    output directory is created, and the run fails only inside [img.save]:
    a failure of the codec after the synthesis has returned, not a rejection
    of the input before it. *)
Lemma size_0_is_not_rejected :
  (0 <= 0)%Z /\
  fst (generate_texture Demo.rng Demo.pillow 0 42 0%nat) = Some [] /\
  mkdir Demo.system "bg.png"%string = true /\
  main Demo.rng Demo.pillow Demo.system 0 42 "bg.png"%string 0%nat = Raised AtSave /\
  main Demo.rng Demo.pillow Demo.system 0 42 "bg.png"%string 0%nat
  <> Raised AtGenerateTexture.
Proof.
  assert (E : fst (generate_texture Demo.rng Demo.pillow 0 42 0%nat) = Some []).
  { rewrite generate_texture_nonpositive by lia. reflexivity. }
  assert (M : main Demo.rng Demo.pillow Demo.system 0 42 "bg.png"%string 0%nat
              = Raised AtSave).
  { unfold main. simpl print.
    destruct (generate_texture Demo.rng Demo.pillow 0 42 0%nat) as [img w'].
    simpl in E. subst img. reflexivity. }
  split; [lia |]. split; [exact E |]. split; [reflexivity |].
  split; [exact M |]. rewrite M. discriminate.
Qed.

(** C4.  For every seed and every pair of real coordinates, negative ones
    included, [sample] returns a value in [0, 1); and for every positive
    size and every seed the texture is a [size] by [size] grid in which
    every pixel has its three colour channels in [0, 255] and alpha 255. *)
Theorem sample_and_texture_ranges (rng : PyRandom) (pil : Pillow)
    (size seed : Z) (w : rng_state rng) (x y : R) :
  (0 < size)%Z ->
  (exists v, sample (fst (__init__ rng seed w)) x y = Some v /\ 0 <= v < 1) /\
  (exists g,
     fst (generate_texture rng pil size seed w) = Some g /\
     length g = Z.to_nat size /\
     Forall (fun row =>
               length row = Z.to_nat size /\
               Forall (fun p =>
                         (0 <= red p <= 255)%Z /\ (0 <= green p <= 255)%Z /\
                         (0 <= blue p <= 255)%Z /\ alpha p = 255%Z)
                      row)
            g).
Proof.
  intros Hsize. split.
  - apply sample_range, init_well_formed.
  - eexists. split; [now apply generate_texture_rows |].
    apply rows_shape. intros px py _ _.
    destruct (texel_Some rng size seed w px py Hsize) as (v & _ & Hv & ->).
    cbn [force]. destruct (shade_inside v Hv) as (_ & _ & _ & _ & _ & Hr & Hg & Hb & Ha).
    repeat split; first [lia | exact Ha].
Qed.

Lemma sample_and_texture_ranges_witness :
  (exists v, sample (fst (__init__ Demo.rng 42 0%nat)) (- (5 / 2)) (7 / 3) = Some v
             /\ 0 <= v < 1) /\
  (exists g,
     fst (generate_texture Demo.rng Demo.pillow 2 42 0%nat) = Some g /\
     length g = Z.to_nat 2 /\
     Forall (fun row =>
               length row = Z.to_nat 2 /\
               Forall (fun p =>
                         (0 <= red p <= 255)%Z /\ (0 <= green p <= 255)%Z /\
                         (0 <= blue p <= 255)%Z /\ alpha p = 255%Z)
                      row)
            g).
Proof.
  apply (sample_and_texture_ranges Demo.rng Demo.pillow 2 42 0%nat (- (5 / 2)) (7 / 3)).
  reflexivity.
Defined.

(** C5.  Two runs that start from different interpreter states [w1] and [w2]
    but use the same seed build lattices on which [sample] returns the same
    value at the same coordinates, and with the same size and seed generate
    the same pixel grid; neither run touches the interpreter's own
    generator. *)
Theorem runs_are_deterministic (rng : PyRandom) (pil : Pillow) (size seed : Z)
    (x y : R) (w1 w2 : rng_state rng) :
  sample (fst (__init__ rng seed w1)) x y = sample (fst (__init__ rng seed w2)) x y /\
  fst (generate_texture rng pil size seed w1)
  = fst (generate_texture rng pil size seed w2) /\
  snd (__init__ rng seed w1) = w1 /\
  snd (generate_texture rng pil size seed w1) = w1.
Proof.
  destruct (init_ignores_world rng seed w1 w2) as [E1 Ew].
  destruct (init_ignores_world rng (seed + 137) w1 w2) as [E2 _].
  destruct (init_ignores_world rng (seed + 271) w1 w2) as [E3 _].
  repeat split.
  - now rewrite E1.
  - rewrite !generate_texture_unfold. simpl. now rewrite E1, E2, E3.
  - exact Ew.
  - now rewrite generate_texture_unfold.
Qed.

(** C7.  For every noise field, coordinates and octave count [k] (so for
    every [k >= 1]), [fbm] is the sum over [i = 0 .. k-1] of
    [amplitude_i * sample(x * frequency_i, y * frequency_i)] with
    [amplitude_0 = 0.5] halving and [frequency_0 = 1] doubling at each
    octave; on a field built by the constructor no sample fails and the
    result is that finite sum of reals. *)
Theorem fbm_is_the_octave_sum (rng : PyRandom) (noise : t) (seed : Z)
    (w : rng_state rng) (x y : R) (k : Z) :
  fbm noise x y k = Spec.fractal_sum (sample noise) x y (Z.to_nat k) /\
  fbm (fst (__init__ rng seed w)) x y k
  = Some (Spec.series
            (fun i =>
               Spec.amplitude i
               * force 0 (sample (fst (__init__ rng seed w))
                                 (x * Spec.frequency i) (y * Spec.frequency i)))
            (Z.to_nat k)) /\
  (forall i, Spec.amplitude i = 0.5 * (1 / 2) ^ i /\ Spec.frequency i = 2 ^ i).
Proof.
  split; [apply fbm_fractal_sum |]. split.
  - rewrite fbm_fractal_sum. apply fractal_sum_series, init_well_formed.
  - intros i. split; [apply amplitude_closed | apply frequency_closed].
Qed.

(** C8.  For every seed and all integers [ix], [iy], [sample(ix, iy)]
    returns exactly the entry of the value table that the permutation hash
    of [(ix, iy)] selects: the fractional parts are 0, [smoothstep(0) = 0],
    and an interpolation at 0 returns its first endpoint. *)
Theorem sample_at_lattice_point (rng : PyRandom) (seed : Z) (w : rng_state rng)
    (ix iy : Z) :
  exists v,
    _hash (fst (__init__ rng seed w)) ix iy = Some v /\
    In v (values (fst (__init__ rng seed w))) /\
    sample (fst (__init__ rng seed w)) (IZR ix) (IZR iy) = Some v /\
    IZR ix - IZR (Py.floor (IZR ix)) = 0 /\
    IZR iy - IZR (Py.floor (IZR iy)) = 0 /\
    smoothstep 0 = 0 /\
    (forall a b, lerp a b 0 = a).
Proof.
  pose proof (init_well_formed rng seed w) as Hwf.
  destruct (hash_Some _ ix iy Hwf) as (v & Ev & Hin & _).
  exists v. repeat split.
  - exact Ev.
  - exact Hin.
  - now rewrite sample_at_lattice.
  - rewrite floor_IZR. ring.
  - rewrite floor_IZR. ring.
  - apply smoothstep_0.
  - apply lerp_0.
Qed.

(** C10.  For every positive size, every seed and every pixel of the
    texture: each of the three [fbm] results with [k] octaves lies in
    [0, 1 - 2^-k), the combined value [v] lies in [0, 1) before it is
    clamped, none of the clamps changes its argument, and the pixel stored
    has 35 <= R <= 55, 30 <= G <= 45 and 28 <= B <= 40. *)
Theorem clamps_never_bind (rng : PyRandom) (pil : Pillow) (size seed : Z)
    (w : rng_state rng) (px py : Z) :
  (0 < size)%Z -> (0 <= px < size)%Z -> (0 <= py < size)%Z ->
  (forall (seed' : Z) (x y : R) (k : Z), (1 <= k)%Z ->
     exists f, fbm (fst (__init__ rng seed' w)) x y k = Some f /\
               0 <= f < 1 - (1 / 2) ^ Z.to_nat k) /\
  exists (v : R) (g : Grid),
    combined (fst (__init__ rng seed w)) (fst (__init__ rng (seed + 137) w))
             (fst (__init__ rng (seed + 271) w)) size px py = Some v /\
    0 <= v < 1 /\
    Py.max 0 (Py.min 1 v) = v /\
    Py.max 0 (Py.min 255 (base_r + var_r * v)) = base_r + var_r * v /\
    Py.max 0 (Py.min 255 (base_g + var_g * v)) = base_g + var_g * v /\
    Py.max 0 (Py.min 255 (base_b + var_b * v)) = base_b + var_b * v /\
    fst (generate_texture rng pil size seed w) = Some g /\
    pixel_at g px py = Some (shade v) /\
    shade v = unclamped_shade v /\
    (35 <= red (shade v) <= 55)%Z /\
    (30 <= green (shade v) <= 45)%Z /\
    (28 <= blue (shade v) <= 40)%Z.
Proof.
  intros Hsize Hpx Hpy. split.
  - intros seed' x y k Hk. apply fbm_range; [apply init_well_formed | exact Hk].
  - destruct (texel_Some rng size seed w px py Hsize) as (v & Ev & Hv & Et).
    destruct (shade_inside v Hv) as (C0 & C1 & C2 & C3 & Es & Hr & Hg & Hb & _).
    exists v. eexists.
    repeat (split; [first [exact Ev | exact Hv | exact C0 | exact C1 | exact C2
                          | exact C3 | now apply generate_texture_rows] |]).
    split; [| repeat split; first [exact Es | apply Hr | apply Hg | apply Hb]].
    unfold pixel_at.
    rewrite (pixel_at_rows size size px py _ Hpx Hpy). now rewrite Et.
Qed.

Lemma clamps_never_bind_witness :
  (forall (seed' : Z) (x y : R) (k : Z), (1 <= k)%Z ->
     exists f, fbm (fst (__init__ Demo.rng seed' 0%nat)) x y k = Some f /\
               0 <= f < 1 - (1 / 2) ^ Z.to_nat k) /\
  exists (v : R) (g : Grid),
    combined (fst (__init__ Demo.rng 42 0%nat)) (fst (__init__ Demo.rng (42 + 137) 0%nat))
             (fst (__init__ Demo.rng (42 + 271) 0%nat)) 2 1 1 = Some v /\
    0 <= v < 1 /\
    Py.max 0 (Py.min 1 v) = v /\
    Py.max 0 (Py.min 255 (base_r + var_r * v)) = base_r + var_r * v /\
    Py.max 0 (Py.min 255 (base_g + var_g * v)) = base_g + var_g * v /\
    Py.max 0 (Py.min 255 (base_b + var_b * v)) = base_b + var_b * v /\
    fst (generate_texture Demo.rng Demo.pillow 2 42 0%nat) = Some g /\
    pixel_at g 1 1 = Some (shade v) /\
    shade v = unclamped_shade v /\
    (35 <= red (shade v) <= 55)%Z /\
    (30 <= green (shade v) <= 45)%Z /\
    (28 <= blue (shade v) <= 40)%Z.
Proof.
  apply (clamps_never_bind Demo.rng Demo.pillow 2 42 0%nat 1 1); lia.
Defined.

End TextureClaims.

(** ** Further properties of the normal-map generator *)

Section NormalMapProperties.

Import GenerateNormals.

(** X1.  The height of a pixel whose channels are bytes lies in [0, 1],
    whatever the source (the luminance weights add up to 1). *)
Theorem height_in_unit_interval (source : string) (r g b a : Z) :
  (0 <= r <= 255)%Z -> (0 <= g <= 255)%Z -> (0 <= b <= 255)%Z ->
  (0 <= a <= 255)%Z ->
  0 <= height_of source (r, g, b, a) <= 1.
Proof.
  intros [Hr0 Hr1] [Hg0 Hg1] [Hb0 Hb1] [Ha0 Ha1].
  apply IZR_le in Hr0, Hr1, Hg0, Hg1, Hb0, Hb1, Ha0, Ha1.
  unfold height_of. destruct (String.eqb source "alpha"); lra.
Qed.

Lemma height_in_unit_interval_witness :
  0 <= height_of "luminance" (255, 255, 255, 0)%Z <= 1.
Proof.
  apply (height_in_unit_interval "luminance" 255 255 255 0); lia.
Defined.

(** X2.  The normal computed from any gradient has z in [0, 1] and leans
    against the gradient ([nx * gx <= 0], [ny * gy <= 0]); negating the
    gradient (as negating the strength does) mirrors x and y and keeps z. *)
Theorem normal_leans_against_gradient (gx gy : R) :
  exists nx ny nz : R,
    normal gx gy = Some (nx, ny, nz) /\
    0 <= nz <= 1 /\
    nx * gx <= 0 /\ ny * gy <= 0 /\
    normal (- gx) (- gy) = Some (- nx, - ny, nz).
Proof.
  destruct (normal_unit_length gx gy) as (Hge & E & _ & Hz).
  destruct (normal_unit_length (- gx) (- gy)) as (_ & E' & _).
  replace (- - gx * - - gx + - - gy * - - gy + 1 * 1)
    with (- gx * - gx + - gy * - gy + 1 * 1) in E' by ring.
  set (L := sqrt (- gx * - gx + - gy * - gy + 1 * 1)) in *.
  assert (Hinv : 0 < / L) by (apply Rinv_0_lt_compat; lra).
  exists (- gx / L), (- gy / L), (1 / L).
  split; [exact E |]. split; [lra |].
  split; [| split].
  - replace (- gx / L * gx) with (- ((gx * gx) * / L)) by (field; lra).
    assert (0 <= gx * gx * / L) by (apply Rmult_le_pos; nra). lra.
  - replace (- gy / L * gy) with (- ((gy * gy) * / L)) by (field; lra).
    assert (0 <= gy * gy * / L) by (apply Rmult_le_pos; nra). lra.
  - rewrite E'. f_equal. f_equal. f_equal; field; lra.
Qed.

(** X3.  For every image, strength and source the generator returns a grid
    of the image's height and width; each pixel keeps the alpha of the
    source pixel, has red and green in [0, 255] and blue in [127, 255].  An
    image of width or height 0 gives a grid without pixels. *)
Theorem normal_map_keeps_shape_and_alpha (img : Image) (strength : R)
    (source : string) :
  exists g : Grid,
    sobel_normal_map img strength source = Some g /\
    length g = Z.to_nat (height img) /\
    Forall (fun row => length row = Z.to_nat (width img)) g /\
    forall x y, (0 <= x < width img)%Z -> (0 <= y < height img)%Z ->
      exists r gr b : Z,
        pixel_at g x y = Some (r, gr, b, alpha (pixels img x y)) /\
        (0 <= r <= 255)%Z /\ (0 <= gr <= 255)%Z /\ (127 <= b <= 255)%Z.
Proof.
  eexists. split; [apply sobel_normal_map_rows |].
  destruct (rows_shape (fun _ => True) (width img) (height img)
              (fun x y =>
                 force (0, 0, 0, 0)%Z
                   (normal_pixel img (height_map img source) strength x y)))
    as [Hlen Hrows]; [trivial |].
  split; [exact Hlen |]. split.
  - eapply Forall_impl; [| exact Hrows]. intros row [Hl _]. exact Hl.
  - intros x y Hx Hy. unfold pixel_at.
    rewrite (pixel_at_rows (width img) (height img) x y _ Hx Hy).
    destruct (normal_pixel_Some img strength source x y Hx Hy)
      as (r & g & b & -> & Hr & Hg & Hb).
    exists r, g, b. repeat split; lia.
Qed.

(** X5.  On heights in [0, 1] both Sobel sums lie in [-4, 4] at every pixel. *)
Theorem gradient_is_bounded (H : Z -> Z -> R) (w hgt x y : Z) :
  (0 <= x < w)%Z -> (0 <= y < hgt)%Z ->
  (forall u v, (0 <= u < w)%Z -> (0 <= v < hgt)%Z -> 0 <= H u v <= 1) ->
  exists a b : R,
    gx (rows w hgt H) w hgt x y = Some a /\
    gy (rows w hgt H) w hgt x y = Some b /\
    -4 <= a <= 4 /\ -4 <= b <= 4.
Proof.
  intros Hx Hy HH. rewrite gx_rows, gy_rows by assumption.
  do 2 eexists. split; [reflexivity |]. split; [reflexivity |].
  unfold Spec.convolve, Spec.total. simpl.
  assert (B : forall dx dy,
            0 <= H (Spec.clamp w (x + dx)) (Spec.clamp hgt (y + dy)) <= 1).
  { intros dx dy. apply HH; unfold Spec.clamp; lia. }
  pose proof (B (-1) (-1))%Z. pose proof (B 0 (-1))%Z. pose proof (B 1 (-1))%Z.
  pose proof (B (-1) 0)%Z. pose proof (B 1 0)%Z.
  pose proof (B (-1) 1)%Z. pose proof (B 0 1)%Z. pose proof (B 1 1)%Z.
  repeat split; lra.
Qed.

Lemma gradient_is_bounded_witness :
  exists a b : R,
    gx (rows 2 2 (fun x y : Z => IZR (x + y) / 2)) 2 2 0 1 = Some a /\
    gy (rows 2 2 (fun x y : Z => IZR (x + y) / 2)) 2 2 0 1 = Some b /\
    -4 <= a <= 4 /\ -4 <= b <= 4.
Proof.
  apply (gradient_is_bounded (fun x y : Z => IZR (x + y) / 2) 2 2 0 1);
    [lia | lia |].
  intros u v Hu Hv.
  assert (Hs : (0 <= u + v <= 2)%Z) by lia.
  destruct Hs as [H0 H2]. apply IZR_le in H0, H2. lra.
Defined.

(** X6.  An image one pixel wide has no horizontal gradient, whatever its
    heights and the strength: every clamped read of a row lands on the same
    pixel and the terms cancel pair by pair. *)
Theorem one_pixel_wide_has_no_gx (H : Z -> Z -> R) (hgt y : Z) (strength : R) :
  (0 <= y < hgt)%Z ->
  gx (rows 1 hgt H) 1 hgt 0 y = Some 0 /\
  exists b, gradient (rows 1 hgt H) 1 hgt 0 y strength = Some (0, b).
Proof.
  intros Hy.
  assert (E : Spec.convolve Spec.kernel_x H 1 hgt 0 y = 0).
  { unfold Spec.convolve, Spec.total, Spec.clamp. simpl.
    replace (Z.max 0 (Z.min 0 (-1))) with 0%Z by lia.
    replace (Z.max 0 (Z.min 0 1)) with 0%Z by lia.
    ring. }
  split.
  - rewrite gx_rows by lia. now rewrite E.
  - rewrite gradient_rows by lia. rewrite E. eexists. do 2 f_equal. ring.
Qed.

Lemma one_pixel_wide_has_no_gx_witness :
  gx (rows 1 3 (fun x y : Z => IZR (x + y) / 4)) 1 3 0 1 = Some 0 /\
  exists b,
    gradient (rows 1 3 (fun x y : Z => IZR (x + y) / 4)) 1 3 0 1 5 = Some (0, b).
Proof.
  apply (one_pixel_wide_has_no_gx (fun x y : Z => IZR (x + y) / 4) 3 1 5). lia.
Defined.

End NormalMapProperties.

(** ** The entry point of the normal-map generator *)

Section NormalMapMain.

Import GenerateNormals GenerateNormals.Main.

Lemma length_append (a b : string) :
  String.length (a ++ b) = (String.length a + String.length b)%nat.
Proof. induction a as [| c a IH]; simpl; [reflexivity | now rewrite IH]. Qed.

(** X8.  The default output path lies beside the input, its name is the input's
    name with "_normals" put between stem and suffix, eight characters
    longer: it is never the input path itself. *)
Theorem default_output_is_not_the_input (pl : Pathlib) (p : Path) :
  parent (default_output pl p) = parent p /\
  String.length (name (default_output pl p)) = (String.length (name p) + 8)%nat /\
  default_output pl p <> p.
Proof.
  assert (Hlen : String.length (name (default_output pl p))
                 = (String.length (name p) + 8)%nat).
  { unfold default_output. simpl name.
    rewrite <- (stem_suffix pl (name p)) at 3.
    rewrite !length_append. simpl. lia. }
  split; [reflexivity |]. split; [exact Hlen |].
  intros E. rewrite E in Hlen. lia.
Qed.

End NormalMapMain.

(** ** Further properties of the texture generator *)

Section NoiseProperties.

Import GenerateBgTexture.
Import GenerateBgTexture.ValueNoise2D.



Lemma land_255_shift (i k : Z) : Z.land (i + 256 * k) 255 = Z.land i 255.
Proof.
  change 255%Z with (Z.ones 8). rewrite !Z.land_ones by lia.
  change (2 ^ 8)%Z with 256%Z.
  replace (i + 256 * k)%Z with (i + k * 256)%Z by lia. apply Z_mod_plus_full.
Qed.

(** X12.  The lattice repeats every 256 cells along each axis, for any
    lattice and at negative cells too: the hash only sees its arguments
    through [& 255]. *)
Theorem hash_has_period_256 (noise : t) (ix iy k l : Z) :
  _hash noise (ix + 256 * k) (iy + 256 * l) = _hash noise ix iy.
Proof.
  unfold _hash. now rewrite !land_255_shift.
Qed.

Lemma range_NoDup (n : Z) : NoDup (Py.range n).
Proof.
  unfold Py.range. generalize (seq_NoDup (Z.to_nat n) 0).
  generalize (seq 0 (Z.to_nat n)). intros l Hl.
  induction Hl as [| a l Hin Hl IH]; simpl; constructor; [| exact IH].
  intros Hm. apply in_map_iff in Hm. destruct Hm as (b & Hb & Hbl).
  apply Nat2Z.inj in Hb. now subst b.
Qed.

(** X13.  The tables a constructor builds: [perm] is a permutation of
    0 .. 255 written twice, so that entry [i + 256] repeats entry [i], and
    [values] holds 256 numbers of [0, 1). *)
Theorem lattice_tables (rng : PyRandom) (seed : Z) (w : rng_state rng) :
  exists p : list Z,
    perm (fst (__init__ rng seed w)) = p ++ p /\
    Permutation (Py.range 256) p /\
    NoDup p /\
    length (values (fst (__init__ rng seed w))) = 256%nat /\
    Forall (fun v => 0 <= v < 1) (values (fst (__init__ rng seed w))) /\
    forall i, (0 <= i < 256)%Z ->
      Py.get (perm (fst (__init__ rng seed w))) (i + 256)
      = Py.get (perm (fst (__init__ rng seed w))) i.
Proof.
  unfold __init__.
  pose proof (shuffle_permutes rng (Random rng seed) (Py.range 256)) as Hp.
  destruct (shuffle rng (Random rng seed) (Py.range 256)) as [p r1].
  simpl in Hp.
  destruct (draw_spec rng 256 r1) as [Hlen Hall].
  destruct (draw rng 256 r1) as [vs r2]. simpl in Hlen, Hall. simpl.
  assert (Hl : length p = 256%nat).
  { rewrite <- (Permutation_length Hp). now rewrite range_length. }
  exists p. repeat split; try assumption.
  - apply (Permutation_NoDup Hp), range_NoDup.
  - intros i Hi. rewrite !get_nonneg by lia.
    rewrite nth_error_app2 by lia. rewrite nth_error_app1 by lia.
    f_equal. lia.
Qed.

(** X14.  Octave by octave: with no octaves (a count of 0 or less) [fbm] is
    0 and samples nothing, and one more octave adds the sample at frequency
    [2^k] weighted by [0.5 / 2^k] to the sum of the first [k]. *)
Theorem fbm_adds_one_octave (noise : t) (x y : R) (k : Z) :
  (0 <= k)%Z ->
  fbm noise x y (- k) = Some 0 /\
  fbm noise x y (k + 1)
  = (acc <- fbm noise x y k ;;
     s <- sample noise (x * 2 ^ Z.to_nat k) (y * 2 ^ Z.to_nat k) ;;
     Some (acc + 0.5 * (1 / 2) ^ Z.to_nat k * s)).
Proof.
  intros Hk. split.
  - unfold fbm. replace (Z.to_nat (- k)) with 0%nat by lia. reflexivity.
  - rewrite !fbm_fractal_sum.
    replace (Z.to_nat (k + 1)) with (S (Z.to_nat k)) by lia. simpl.
    now rewrite frequency_closed, amplitude_closed.
Qed.

Lemma fbm_adds_one_octave_witness :
  fbm (fst (__init__ Demo.rng 42 0%nat)) (1 / 3) (1 / 5) (- 2) = Some 0 /\
  fbm (fst (__init__ Demo.rng 42 0%nat)) (1 / 3) (1 / 5) (2 + 1)
  = (acc <- fbm (fst (__init__ Demo.rng 42 0%nat)) (1 / 3) (1 / 5) 2 ;;
     s <- sample (fst (__init__ Demo.rng 42 0%nat))
            (1 / 3 * 2 ^ Z.to_nat 2) (1 / 5 * 2 ^ Z.to_nat 2) ;;
     Some (acc + 0.5 * (1 / 2) ^ Z.to_nat 2 * s)).
Proof.
  apply (fbm_adds_one_octave (fst (__init__ Demo.rng 42 0%nat)) (1 / 3) (1 / 5) 2).
  lia.
Defined.

End NoiseProperties.

Section TextureProperties.

Import GenerateBgTexture.
Import GenerateBgTexture.ValueNoise2D.

(** Pixels at the same relative position of two sizes see the same noise
    coordinates. *)
Lemma texel_same_position (noise1 noise2 noise3 : t) (size size' x y x' y' : Z) :
  (0 < size)%Z -> (0 < size')%Z ->
  (x * size' = x' * size)%Z -> (y * size' = y' * size)%Z ->
  texel noise1 noise2 noise3 size x y = texel noise1 noise2 noise3 size' x' y'.
Proof.
  intros Hs Hs' Hx Hy.
  assert (Hn : IZR size <> 0) by (apply not_0_IZR; lia).
  assert (Hn' : IZR size' <> 0) by (apply not_0_IZR; lia).
  assert (Q : forall a a' : Z, (a * size' = a' * size)%Z ->
                IZR a / IZR size = IZR a' / IZR size').
  { intros a a' Ha. apply (f_equal IZR) in Ha. rewrite !mult_IZR in Ha.
    replace (IZR a / IZR size) with (IZR a * IZR size' / (IZR size * IZR size'))
      by (field; split; assumption).
    rewrite Ha. field. split; assumption. }
  unfold texel, combined. rewrite !div_Some by assumption.
  now rewrite (Q x x' Hx), (Q y y' Hy).
Qed.

(** X15.  The texture does not depend on the resolution: a pixel at the same
    relative position in textures of two sizes (as [(x, y)] at size [n] and
    [(2x, 2y)] at size [2n], or the corner [(0, 0)] at any size) has the
    same colour. *)
Theorem texture_is_resolution_independent (rng : PyRandom) (pil : Pillow)
    (size size' seed : Z) (w : rng_state rng) (x y x' y' : Z) :
  (0 <= x < size)%Z -> (0 <= y < size)%Z ->
  (0 <= x' < size')%Z -> (0 <= y' < size')%Z ->
  (x * size' = x' * size)%Z -> (y * size' = y' * size)%Z ->
  exists (g g' : Grid) (p : RGBA),
    fst (generate_texture rng pil size seed w) = Some g /\
    fst (generate_texture rng pil size' seed w) = Some g' /\
    pixel_at g x y = Some p /\
    pixel_at g' x' y' = Some p.
Proof.
  intros Hx Hy Hx' Hy' Ex Ey.
  assert (Hs : (0 < size)%Z) by lia. assert (Hs' : (0 < size')%Z) by lia.
  destruct (texel_Some rng size seed w x y Hs) as (v & _ & _ & Et).
  do 2 eexists. exists (shade v).
  split; [now apply generate_texture_rows |].
  split; [now apply generate_texture_rows |].
  unfold pixel_at.
  rewrite (pixel_at_rows size size x y _ Hx Hy).
  rewrite (pixel_at_rows size' size' x' y' _ Hx' Hy').
  rewrite <- (texel_same_position _ _ _ size size' x y x' y' Hs Hs' Ex Ey).
  rewrite Et. split; reflexivity.
Qed.

Lemma texture_is_resolution_independent_witness :
  exists (g g' : Grid) (p : RGBA),
    fst (generate_texture Demo.rng Demo.pillow 2 42 0%nat) = Some g /\
    fst (generate_texture Demo.rng Demo.pillow 4 42 0%nat) = Some g' /\
    pixel_at g 1 1 = Some p /\
    pixel_at g' 2 2 = Some p.
Proof.
  apply (texture_is_resolution_independent Demo.rng Demo.pillow 2 4 42 0%nat 1 1 2 2);
    lia.
Defined.

End TextureProperties.

Section MoreProperties.

Import GenerateBgTexture GenerateNormals.

Lemma floor_monotone (a b : R) : a <= b -> (Py.floor a <= Py.floor b)%Z.
Proof.
  intros Hab. pose proof (floor_bounds a) as Ha. pose proof (floor_bounds b) as Hb.
  apply Z.lt_succ_r. apply lt_IZR. rewrite succ_IZR. lra.
Qed.

Lemma floor_add (a : R) (n : Z) : (Py.floor a + n <= Py.floor (a + IZR n))%Z.
Proof.
  pose proof (floor_bounds a) as Ha. pose proof (floor_bounds (a + IZR n)) as Hb.
  apply Z.lt_succ_r. apply lt_IZR. rewrite succ_IZR, plus_IZR. lra.
Qed.

Lemma clamp_monotone (lo hi a b : R) :
  lo <= hi -> a <= b -> Py.max lo (Py.min hi a) <= Py.max lo (Py.min hi b).
Proof.
  intros Hlh Hab. unfold Py.max, Py.min.
  destruct (Rlt_dec a hi), (Rlt_dec b hi);
    repeat match goal with |- context [Rlt_dec ?u ?v] => destruct (Rlt_dec u v) end;
    lra.
Qed.

(** X16.  For every combined noise value, in range or not, the colour
    written is warm (red at least 5 above green, green at least 2 above
    blue), and a larger noise value never gives a darker channel. *)
Theorem shade_is_warm_and_monotone (v v' : R) :
  v <= v' ->
  (green (shade v) + 5 <= red (shade v))%Z /\
  (blue (shade v) + 2 <= green (shade v))%Z /\
  (red (shade v) <= red (shade v'))%Z /\
  (green (shade v) <= green (shade v'))%Z /\
  (blue (shade v) <= blue (shade v'))%Z.
Proof.
  intros Hv. unfold shade, base_r, base_g, base_b, var_r, var_g, var_b.
  cbv zeta. cbn [red green blue].
  pose proof (clamp_range 0 1 v ltac:(lra)) as Hc.
  pose proof (clamp_range 0 1 v' ltac:(lra)) as Hc'.
  pose proof (clamp_monotone 0 1 v v' ltac:(lra) Hv) as Hm.
  set (c := Py.max 0 (Py.min 1 v)) in *.
  set (c' := Py.max 0 (Py.min 1 v')) in *.
  rewrite !clamp_inside by lra. rewrite !int_nonneg by lra.
  repeat split.
  - apply (Z.le_trans _ (Py.floor (30 + 15 * c + IZR 5))); [apply floor_add |].
    apply floor_monotone. lra.
  - apply (Z.le_trans _ (Py.floor (28 + 12 * c + IZR 2))); [apply floor_add |].
    apply floor_monotone. lra.
  - apply floor_monotone. lra.
  - apply floor_monotone. lra.
  - apply floor_monotone. lra.
Qed.

Lemma shade_is_warm_and_monotone_witness :
  (green (shade (- 3)) + 5 <= red (shade (- 3)))%Z /\
  (blue (shade (- 3)) + 2 <= green (shade (- 3)))%Z /\
  (red (shade (- 3)) <= red (shade (7 / 2)))%Z /\
  (green (shade (- 3)) <= green (shade (7 / 2)))%Z /\
  (blue (shade (- 3)) <= blue (shade (7 / 2)))%Z.
Proof.
  apply (shade_is_warm_and_monotone (- 3) (7 / 2)). lra.
Defined.

(** X18.  A higher strength gives more pronounced normals: for the same
    Sobel sums and strengths [0 <= s <= s'], the z component of the normal
    at [s'] is at most the one at [s], and so is the blue channel. *)
Theorem higher_strength_tilts_more (a b s s' : R) :
  0 <= s <= s' ->
  exists nx ny nz nx' ny' nz' : R,
    normal (a * s) (b * s) = Some (nx, ny, nz) /\
    normal (a * s') (b * s') = Some (nx', ny', nz') /\
    0 <= nz' <= nz /\ nz <= 1 /\
    (channel nz' <= channel nz)%Z.
Proof.
  intros [Hs Hss].
  destruct (normal_unit_length (a * s) (b * s)) as (HL & E & _ & Hz).
  destruct (normal_unit_length (a * s') (b * s')) as (HL' & E' & _ & Hz').
  set (r := - (a * s) * - (a * s) + - (b * s) * - (b * s) + 1 * 1) in *.
  set (r' := - (a * s') * - (a * s') + - (b * s') * - (b * s') + 1 * 1) in *.
  assert (Hr : r <= r').
  { unfold r, r'.
    assert (s * s <= s' * s') by nra.
    assert (0 <= a * a) by nra. assert (0 <= b * b) by nra.
    assert (a * a * (s * s) <= a * a * (s' * s')) by (apply Rmult_le_compat_l; lra).
    assert (b * b * (s * s) <= b * b * (s' * s')) by (apply Rmult_le_compat_l; lra).
    lra. }
  assert (HLL : sqrt r <= sqrt r') by (apply sqrt_le_1_alt; exact Hr).
  assert (Hnz : 1 / sqrt r' <= 1 / sqrt r).
  { unfold Rdiv. rewrite !Rmult_1_l. apply Rinv_le_contravar; lra. }
  do 6 eexists. split; [exact E |]. split; [exact E' |].
  split; [lra |]. split; [lra |].
  destruct (channel_inside (1 / sqrt r)) as [-> _]; [lra |].
  destruct (channel_inside (1 / sqrt r')) as [-> _]; [lra |].
  apply floor_monotone. lra.
Qed.

Lemma higher_strength_tilts_more_witness :
  exists nx ny nz nx' ny' nz' : R,
    normal (1 / 3 * 1) (1 / 2 * 1) = Some (nx, ny, nz) /\
    normal (1 / 3 * 2) (1 / 2 * 2) = Some (nx', ny', nz') /\
    0 <= nz' <= nz /\ nz <= 1 /\
    (channel nz' <= channel nz)%Z.
Proof.
  apply (higher_strength_tilts_more (1 / 3) (1 / 2) 1 2). lra.
Defined.

End MoreProperties.
